(** * Verification of the track scrapers of weeklybeatsscraper

    Shallow embedding of the two scrapers of the repository:
    - [Watcher]: the streaming [HTMLTrackParser] of [weeklybeatswatcher.py]
      (an [html.parser.HTMLParser] subclass tracking open tags by hand) and
      [check_new_comments];
    - [Scraper]: [TrackListScraper] of [trackscraper.py], which works on the
      tree built by BeautifulSoup, and the page loop of [scrape_week_tracks]. *)

From Stdlib Require Import String Ascii List ZArith Bool Lia.
Import ListNotations.
Open Scope string_scope.

(** ** Python building blocks *)

Module Py.

(** A Python dict with insertion order: assignment overwrites in place or
    appends a new key at the end. *)
Fixpoint dict_set {K V} (eqb : K -> K -> bool) (d : list (K * V)) (k : K) (v : V)
  : list (K * V) :=
  match d with
  | [] => [(k, v)]
  | (k', v') :: r => if eqb k k' then (k, v) :: r else (k', v') :: dict_set eqb r k v
  end.

Fixpoint dict_get {K V} (eqb : K -> K -> bool) (d : list (K * V)) (k : K) : option V :=
  match d with
  | [] => None
  | (k', v) :: r => if eqb k k' then Some v else dict_get eqb r k
  end.

(** [dict(pairs)]: later pairs overwrite earlier ones. *)
Definition dict_of_pairs {K V} (eqb : K -> K -> bool) (l : list (K * V)) : list (K * V) :=
  fold_left (fun d '(k, v) => dict_set eqb d k v) l [].

(** Characters for which [str.isspace] holds, in the ASCII range. *)
Definition is_space (c : ascii) : bool :=
  let n := nat_of_ascii c in
  (Nat.eqb n 32) || ((9 <=? n) && (n <=? 13))%nat || ((28 <=? n) && (n <=? 31))%nat.

Fixpoint split_go (s : string) (cur : list ascii) : list string :=
  match s with
  | EmptyString =>
      match cur with [] => [] | _ => [string_of_list_ascii (rev cur)] end
  | String c s' =>
      if is_space c then
        match cur with
        | [] => split_go s' []
        | _ => string_of_list_ascii (rev cur) :: split_go s' []
        end
      else split_go s' (c :: cur)
  end.

(** [s.split()] with no argument: runs of whitespace separate, empty
    fields are dropped. *)
Definition split (s : string) : list string := split_go s [].

Fixpoint lstrip (l : list ascii) : list ascii :=
  match l with
  | c :: r => if is_space c then lstrip r else l
  | [] => []
  end.

Definition strip (l : list ascii) : list ascii := rev (lstrip (rev (lstrip l))).

Definition digit_val (c : ascii) : option Z :=
  let n := nat_of_ascii c in
  if ((48 <=? n) && (n <=? 57))%nat then Some (Z.of_nat (n - 48)) else None.

(** Digits with single underscores between them, as [int] accepts. *)
Fixpoint digits_go (l : list ascii) (acc : Z) (after_us : bool) : option Z :=
  match l with
  | [] => if after_us then None else Some acc
  | c :: r =>
      if Ascii.eqb c "_" then (if after_us then None else digits_go r acc true)
      else match digit_val c with
           | Some d => digits_go r (acc * 10 + d) false
           | None => None
           end
  end.

Definition digits (l : list ascii) : option Z :=
  match l with
  | c :: r => match digit_val c with Some d => digits_go r d false | None => None end
  | [] => None
  end.

(** [int(s)] on a [str] (ASCII decimal digits); [None] is the [ValueError]. *)
Definition int (s : string) : option Z :=
  match strip (list_ascii_of_string s) with
  | "-"%char :: r => option_map Z.opp (digits r)
  | "+"%char :: r => digits r
  | l => digits l
  end.

(** [l[-n:]]. *)
Definition slice_last {A} (n : nat) (l : list A) : list A := skipn (length l - n) l.

Definition last_opt {A} (l : list A) : option A :=
  match rev l with [] => None | x :: _ => Some x end.

End Py.

(** ** [weeklybeatswatcher.py]: the streaming [HTMLTrackParser] *)

Module Watcher.
Import Py.

(** Python values stored in a track dict. *)
Inductive pyval := VNone | VStr (s : string) | VInt (z : Z).

Definition pyval_of_opt (o : option string) : pyval :=
  match o with Some s => VStr s | None => VNone end.

(** The attribute dict of an open tag ([dict(attrs)]; a value-less attribute
    is [None]). *)
Definition attrs := list (string * option string).
Definition frame := (string * attrs)%type.
Definition track := list (string * pyval).

Record state := mkState {
  tracks : list (option track);   (** [self.tracks]; [None] would be Python [None] *)
  opentags : list frame;          (** [self._opentags], outermost first *)
  listitem : option track;        (** [self._listitem] *)
  itemdepth : nat                 (** [self._itemdepth] *)
}.

(** The exceptions the parser can raise. *)
Inductive err :=
| Mismatch       (** [ValueError("Mismatch tag ...")] *)
| UnclosedItem   (** [ValueError("Unclosed track list item ...")] *)
| KeyErr         (** [attrs["id"]] on a marker without [id] *)
| AttrErr        (** [None.startswith] on a value-less [class] *)
| ConvErr.       (** a converter raised ([int] or [split()[1]]) *)

Inductive result (A : Type) := Ok (a : A) | Err (e : err).
Arguments Ok {A} a.
Arguments Err {A} e.

Definition init : state := mkState [] [] None 0.

Definition depth (st : state) : nat := length (opentags st).

Definition to_be_ignored (tag : string) : bool := existsb (String.eqb tag) ["input"].

(** [tag == "div" and attrs.get("class", "").startswith("main-item")] *)
Definition marker_test (tag : string) (a : attrs) : result bool :=
  if String.eqb tag "div" then
    match dict_get String.eqb a "class" with
    | None => Ok (prefix "main-item" "")
    | Some None => Err AttrErr
    | Some (Some c) => Ok (prefix "main-item" c)
    end
  else Ok false.

Definition handle_starttag (tag : string) (raw : attrs) (st : state) : result state :=
  if to_be_ignored tag then Ok st else
  let a := dict_of_pairs String.eqb raw in
  let ot := (opentags st ++ [(tag, a)])%list in
  match marker_test tag a with
  | Err e => Err e
  | Ok false => Ok (mkState (tracks st) ot (listitem st) (itemdepth st))
  | Ok true =>
      match listitem st with
      | Some _ => Err UnclosedItem
      | None =>
          match dict_get String.eqb a "id" with
          | None => Err KeyErr
          | Some v => Ok (mkState (tracks st) ot (Some [("id", pyval_of_opt v)]) (length ot))
          end
      end
  end.

Definition handle_endtag (tag : string) (st : state) : result state :=
  if to_be_ignored tag then Ok st else
  match last_opt (opentags st) with
  | None => Err Mismatch
  | Some (t, _) =>
      if negb (String.eqb tag t) then Err Mismatch else
      let ot := removelast (opentags st) in
      if (length ot <? itemdepth st)%nat
      then Ok (mkState (tracks st ++ [listitem st])%list ot None 0)
      else Ok (mkState (tracks st) ot (listitem st) (itemdepth st))
  end.

(** A signature step: tag name and required attribute values. *)
Definition step := (string * list (string * string))%type.

(** The [signatures] dict of [handle_data], in insertion order. *)
Definition signatures : list (string * list step) :=
  [ ("title", [("div", [("class", "item-subject")]); ("h3", []); ("a", [])]);
    ("week", [("li", [("class", "info-views")]); ("strong", [])]);
    ("comments", [("li", [("class", "info-replies")]); ("strong", [])]) ].

(** [converters.get(thing, str)(data)]; [None] is a raised exception. *)
Definition converters (thing : string) (data : string) : option pyval :=
  if String.eqb thing "week" then
    match nth_error (split data) 1 with
    | Some w => option_map VInt (int w)
    | None => None
    end
  else if String.eqb thing "comments" then option_map VInt (int data)
  else Some (VStr data).

(** One (tag, test) pair of the inner loop: name, then every attribute. *)
Definition step_match (fr : frame) (test : step) : bool :=
  String.eqb (fst test) (fst fr) &&
  forallb (fun '(k, v) =>
             match dict_get String.eqb (snd fr) k with
             | Some (Some v') => String.eqb v' v
             | _ => false
             end) (snd test).

(** [zip(self._opentags[-len(conditions):], conditions)] with no mismatch. *)
Definition sig_match (path : list frame) (conds : list step) : bool :=
  forallb (fun '(fr, t) => step_match fr t)
          (combine (slice_last (length conds) path) conds).

Fixpoint apply_sigs (sigs : list (string * list step)) (path : list frame)
         (data : string) (item : track) : result track :=
  match sigs with
  | [] => Ok item
  | (thing, conds) :: r =>
      if sig_match path conds then
        match converters thing data with
        | Some v => apply_sigs r path data (dict_set String.eqb item thing v)
        | None => Err ConvErr
        end
      else apply_sigs r path data item
  end.

Definition handle_data (data : string) (st : state) : result state :=
  match listitem st with
  | None => Ok st
  | Some item =>
      match apply_sigs signatures (opentags st) data item with
      | Ok item' => Ok (mkState (tracks st) (opentags st) (Some item') (itemdepth st))
      | Err e => Err e
      end
  end.

(** The callbacks [HTMLParser.feed] makes. *)
Inductive event :=
| StartTag (tag : string) (a : attrs)
| EndTag (tag : string)
| Data (s : string).

Definition handle (ev : event) (st : state) : result state :=
  match ev with
  | StartTag t a => handle_starttag t a st
  | EndTag t => handle_endtag t st
  | Data s => handle_data s st
  end.

Fixpoint run (evs : list event) (st : state) : result state :=
  match evs with
  | [] => Ok st
  | e :: r => match handle e st with Ok st' => run r st' | Err x => Err x end
  end.

(** [w = HTMLTrackParser(); w.feed(text); return w.tracks] *)
Definition fetch_tracks (evs : list event) : result (list (option track)) :=
  match run evs init with Ok st => Ok (tracks st) | Err e => Err e end.

End Watcher.

(** Well-nested documents as the element trees whose events [HTMLParser]
    reports, to state what the parser does on a whole document. *)
Module WatcherDoc.
Import Py Watcher.

Local Set Warnings "-register-all".

Inductive dnode :=
| DElem (tag : string) (a : attrs) (kids : list dnode)
| DText (s : string).

Fixpoint events_of (n : dnode) : list event :=
  match n with
  | DText s => [Data s]
  | DElem t a kids => StartTag t a :: (flat_map events_of kids ++ [EndTag t])
  end.

Definition doc_events (ns : list dnode) : list event := flat_map events_of ns.

(** No marker block inside another, every marker has an [id], and no [div]
    has a value-less [class]. [inrec] says a marker block is open. *)
Fixpoint wf (inrec : bool) (n : dnode) : bool :=
  match n with
  | DText _ => true
  | DElem t a kids =>
      if to_be_ignored t then forallb (wf inrec) kids else
      let d := dict_of_pairs String.eqb a in
      match marker_test t d with
      | Err _ => false
      | Ok m =>
          (if m then negb inrec &&
                       match dict_get String.eqb d "id" with Some _ => true | None => false end else true)
          && forallb (wf (inrec || m)) kids
      end
  end.

(** The [id] of every marker block, in document order. *)
Fixpoint marker_ids (n : dnode) : list pyval :=
  match n with
  | DText _ => []
  | DElem t a kids =>
      let d := dict_of_pairs String.eqb a in
      let here :=
        if to_be_ignored t then [] else
        match marker_test t d, dict_get String.eqb d "id" with
        | Ok true, Some v => [pyval_of_opt v]
        | _, _ => []
        end in
      here ++ flat_map marker_ids kids
  end.

Definition track_id (o : option track) : option pyval :=
  match o with Some r => dict_get String.eqb r "id" | None => None end.

End WatcherDoc.

(** The state invariant [HTMLTrackParser] keeps: no item open and depth
    [0], or one item open, holding its [id], opened at a depth between [1]
    and the current depth. *)
Module WatcherInv.
Import Py Watcher.

Definition inv (st : state) : Prop :=
  (listitem st = None /\ itemdepth st = 0) \/
  (exists item v, listitem st = Some item /\ dict_get String.eqb item "id" = Some v /\
                  (1 <= itemdepth st)%nat /\ (itemdepth st <= length (opentags st))%nat).

(** Every entry of [self.tracks] is a track dict with an [id]. *)
Definition sealed_ok (st : state) : Prop :=
  Forall (fun o => exists r v, o = Some r /\ dict_get String.eqb r "id" = Some v) (tracks st).

(** Events [handle_starttag]/[handle_endtag] act on. *)
Definition not_ignored (e : event) : bool :=
  match e with
  | StartTag t _ | EndTag t => negb (to_be_ignored t)
  | Data _ => true
  end.

End WatcherInv.

(** ** [check_new_comments] of [weeklybeatswatcher.py] *)
Module Comments.
Import Py.

(** A saved or fetched track: only the keys [check_new_comments] reads. *)
Record entry := mkEntry { week : Z; comments : Z }.

(** [{i["week"]: i for i in a}] *)
Definition week_indexed (a : list entry) : list (Z * entry) :=
  fold_left (fun d i => dict_set Z.eqb d (week i) i) a [].

Definition check_new_comments (tracks record : list entry) : list (Z * Z) :=
  let t := week_indexed tracks in
  let r := week_indexed record in
  fold_left (fun new_comments '(w, e) =>
               match dict_get Z.eqb r w with
               | None => new_comments
               | Some re =>
                   let n := (comments e - comments re)%Z in
                   if negb (n =? 0)%Z then dict_set Z.eqb new_comments w n else new_comments
               end) t [].

(** Reading of the claim: the comment count a list gives a week is that of
    its entry for the week (the last one, should there be several). *)
Definition count_of (l : list entry) (w : Z) : option Z :=
  match rev (filter (fun e => (week e =? w)%Z) l) with
  | e :: _ => Some (comments e)
  | [] => None
  end.

End Comments.

(** ** [trackscraper.py]: [TrackListScraper] over the BeautifulSoup tree *)
Module Scraper.
Import Py.

Local Set Warnings "-register-all".

(** A BeautifulSoup attribute value: a [str], or the token list it keeps
    for multi-valued attributes such as [class]. *)
Inductive aval := AStr (s : string) | AToks (l : list string).

Fixpoint strs_eqb (a b : list string) : bool :=
  match a, b with
  | [], [] => true
  | x :: a', y :: b' => String.eqb x y && strs_eqb a' b'
  | _, _ => false
  end.

(** Python [==] on the two kinds of values ([str] never equals [list]). *)
Definition aval_eqb (a b : aval) : bool :=
  match a, b with
  | AStr x, AStr y => String.eqb x y
  | AToks x, AToks y => strs_eqb x y
  | _, _ => false
  end.

(** Truthiness of a signature value ([if value and ...]). *)
Definition truthy (v : aval) : bool :=
  match v with
  | AStr s => negb (String.eqb s "")
  | AToks l => match l with [] => false | _ => true end
  end.

(** Attributes the [html.parser] tree builder keeps as token lists. *)
Definition multi_valued (tag attr : string) : bool :=
  existsb (String.eqb attr) ["class"; "accesskey"; "dropzone"] ||
  ((String.eqb tag "a" || String.eqb tag "link") && existsb (String.eqb attr) ["rel"; "rev"]).

(** The attribute dict BeautifulSoup builds from the raw attributes. *)
Definition bs_attrs (tag : string) (raw : list (string * string)) : list (string * aval) :=
  dict_of_pairs String.eqb
    (map (fun '(k, v) => (k, if multi_valued tag k then AToks (split v) else AStr v)) raw).

(** Tags and strings of the parsed tree; the root is the [BeautifulSoup]
    object, a tag named ["[document]"]. *)
Inductive node :=
| Tag (name : string) (attrs : list (string * aval)) (kids : list node)
| NStr (s : string).

(** A signature item: tag name and required attributes. *)
Definition key := (string * list (string * aval))%type.

Fixpoint attrs_ok (tattrs : list (string * aval)) (reqs : list (string * aval)) : bool :=
  match reqs with
  | [] => true
  | (attr, value) :: r =>
      match dict_get String.eqb tattrs attr with
      | None => false
      | Some tv => if truthy value && negb (aval_eqb value tv) then false else attrs_ok tattrs r
      end
  end.

(** [_signature_key_match] ([verbose] printing left out); a string's
    [.name] is [None], which equals no key name. *)
Definition signature_key_match (t : node) (k : key) : bool :=
  match t with
  | Tag nm a _ => String.eqb nm (fst k) && attrs_ok a (snd k)
  | NStr _ => false
  end.

(** [_signature_match_function(sig)] applied to a tag and [tag.parents]
    (innermost first). [sig[-2::-1]] is the tail of the reversed signature.
    Every signature of the source is a non-empty tuple. *)
Definition signature_match (sig : list key) (t : node) (parents : list node) : bool :=
  match rev sig with
  | [] => false
  | k :: ks =>
      signature_key_match t k &&
      forallb (fun '(p, k') => signature_key_match p k') (combine parents ks)
  end.

(** Descendant tags in document order, each with its parents. *)
Fixpoint descendants (parents : list node) (n : node) : list (node * list node) :=
  match n with
  | NStr _ => []
  | Tag _ _ kids =>
      flat_map (fun k => match k with
                         | Tag _ _ _ => (k, n :: parents) :: descendants (n :: parents) k
                         | NStr _ => []
                         end) kids
  end.

(** [n.find_all(f)] for a function [f]: strings are never passed to it. *)
Definition find_all (f : node -> list node -> bool) (n : node) (parents : list node)
  : list (node * list node) :=
  filter (fun '(t, ps) => f t ps) (descendants parents n).

(** [class_=re.compile("^main-item")]: each class token, and the whole
    attribute string, is tried against the pattern. *)
Definition class_match (v : aval) : bool :=
  match v with
  | AToks l => existsb (prefix "main-item") l || prefix "main-item" (String.concat " " l)
  | AStr s => prefix "main-item" s
  end.

Definition is_track_tag (t : node) (_ : list node) : bool :=
  match t with
  | Tag nm a _ =>
      String.eqb nm "div" &&
      match dict_get String.eqb a "class" with Some v => class_match v | None => false end
  | NStr _ => false
  end.

Inductive err := IndexError | KeyError.

Inductive outcome (A : Type) := Done (a : A) | Raised (e : err).
Arguments Done {A} a.
Arguments Raised {A} e.

(** [tag.string]: the only child's string, looked up through single children. *)
Fixpoint tag_string (t : node) : option string :=
  match t with
  | NStr s => Some s
  | Tag _ _ [k] => tag_string k
  | Tag _ _ _ => None
  end.

(** [str(lambda t: t.string)]: [str(None)] is ["None"]. *)
Definition default_converter (t : node) : outcome string :=
  Done (match tag_string t with Some s => s | None => "None" end).

Record scraper := mkScraper {
  signatures : list (string * list key);
  converters : string -> option (node -> outcome string)
}.

Definition convert (sc : scraper) (thing : string) (t : node) : outcome string :=
  match converters sc thing with Some f => f t | None => default_converter t end.

Definition TrackListScraper : scraper :=
  mkScraper [("title", [("div", [("class", AToks ["item-subject"])]); ("h3", []); ("a", [])])]
            (fun _ => None).

(** [s.split(c)] for a one-character separator: empty fields are kept. *)
Fixpoint split_on_go (c : ascii) (s : string) (cur : list ascii) : list string :=
  match s with
  | EmptyString => [string_of_list_ascii (rev cur)]
  | String d s' =>
      if Ascii.eqb c d then string_of_list_ascii (rev cur) :: split_on_go c s' []
      else split_on_go c s' (d :: cur)
  end.

Definition attr_str (v : aval) : string :=
  match v with AStr s => s | AToks l => String.concat " " l end.

(** [tag.attrs["onclick"].split("'")[1]] *)
Definition extract_track_url (t : node) : outcome string :=
  match t with
  | Tag _ a _ =>
      match dict_get String.eqb a "onclick" with
      | None => Raised KeyError
      | Some v => match nth_error (split_on_go "'"%char (attr_str v) []) 1 with
                  | Some u => Done u
                  | None => Raised IndexError
                  end
      end
  | NStr _ => Raised KeyError
  end.

(** [tag.attrs["href"]] *)
Definition extract_page_url (t : node) : outcome string :=
  match t with
  | Tag _ a _ =>
      match dict_get String.eqb a "href" with
      | None => Raised KeyError
      | Some v => Done (attr_str v)
      end
  | NStr _ => Raised KeyError
  end.

Definition TrackLinkScraper : scraper :=
  mkScraper
    (signatures TrackListScraper ++
     [("url", [("div", [("class", AToks ["player-play"; "play-list"])])]);
      ("page", [("div", [("class", AToks ["item-subject"])]); ("h3", []); ("a", [])]);
      ("artist", [("p", []); ("span", [("class", AToks ["item-starter"])]); ("cite", [])])])%list
    (fun thing =>
       if String.eqb thing "page" then Some extract_page_url
       else if String.eqb thing "url" then Some extract_track_url
       else None).

Definition track := list (string * string).

(** The diagnostics [feed] prints: a signature name and its match count. *)
Definition diag := (string * nat)%type.

(** The inner loop of [feed] for one track tag [tg] with parents [ps]. *)
Fixpoint fill (sc : scraper) (sigs : list (string * list key)) (tg : node)
         (ps : list node) (trk : track) : list diag * outcome track :=
  match sigs with
  | [] => ([], Done trk)
  | (thing, sig) :: r =>
      let res := find_all (signature_match sig) tg ps in
      let d := if Nat.eqb (length res) 1 then [] else [(thing, length res)] in
      match res with
      | [] => (d, Raised IndexError)
      | (t, _) :: _ =>
          match convert sc thing t with
          | Raised e => (d, Raised e)
          | Done v =>
              let '(d', o) := fill sc r tg ps (dict_set String.eqb trk thing v) in
              ((d ++ d')%list, o)
          end
      end
  end.

Fixpoint feed_tags (sc : scraper) (tgs : list (node * list node)) (acc : list track)
  : list diag * outcome (list track) :=
  match tgs with
  | [] => ([], Done acc)
  | (tg, ps) :: r =>
      let '(d, o) := fill sc (signatures sc) tg ps [] in
      match o with
      | Raised e => (d, Raised e)
      | Done trk => let '(d', o') := feed_tags sc r (acc ++ [trk])%list in ((d ++ d')%list, o')
      end
  end.

(** [self.feed(contents)] on the parsed document [doc], with [self.tracks]
    equal to [acc] before the call. *)
Definition feed (sc : scraper) (doc : node) (acc : list track) : list diag * outcome (list track) :=
  feed_tags sc (find_all is_track_tag doc []) acc.

(** [self.scrape(url, params)] once the page is fetched and parsed into
    [doc]: [feed], then [len(self.tracks) > before]. *)
Definition scrape (sc : scraper) (doc : node) (acc : list track)
  : list diag * outcome (list track * bool) :=
  let before := length acc in
  let '(d, o) := feed sc doc acc in
  match o with
  | Done trs => (d, Done (trs, (before <? length trs)%nat))
  | Raised e => (d, Raised e)
  end.

(** [scrape_week_tracks]: [page_records i] is what [scraper.scrape] does
    on page [i]: [inl recs] when it returns, having appended [recs] to
    [scraper.tracks]; [inr e] when it raises [e] (a request error, or an
    exception of [feed] or of a converter), which leaves the loop and the
    function. *)
Section Pages.
Context {T E : Type} (page_records : Z -> list T + E).

Fixpoint pages_loop (pages : list Z) (tracks : list T) (fetched : list Z)
  : list Z * (list T + E) :=
  match pages with
  | [] => (fetched, inl tracks)
  | i :: r =>
      let fetched' := (fetched ++ [i])%list in
      match page_records i with
      | inr e => (fetched', inr e)
      | inl recs =>
          let tracks' := (tracks ++ recs)%list in
          if (length tracks <? length tracks')%nat then pages_loop r tracks' fetched'
          else (fetched', inl tracks')
      end
  end.

(** [for i in range(1, 10)]: the pages fetched, and the tracks returned or
    the exception raised. *)
Definition scrape_week_tracks : list Z * (list T + E) :=
  pages_loop (map Z.of_nat (seq 1 9)) [] [].

End Pages.

End Scraper.

(** ** Readings of the specification, to compare with the code *)
Module SpecReading.
Import Py Watcher.

(** Signature matching as the specification words it: the last step on
    the current element, then each earlier step on the nearest ancestor
    (walking outward) that satisfies it, skipping the others. *)
Fixpoint walk_out (ancestors : list frame) (steps_rev : list step) : bool :=
  match steps_rev with
  | [] => true
  | s :: ss =>
      match ancestors with
      | [] => false
      | a :: anc =>
          if step_match a s then walk_out anc ss else walk_out anc steps_rev
      end
  end.

Definition spec_sig_match (path : list frame) (conds : list step) : bool :=
  match rev path, rev conds with
  | cur :: anc, s :: ss => step_match cur s && walk_out anc ss
  | _, _ => false
  end.

(** The two constraint forms the specification names. *)
Inductive constraint := Exact (s : string) | Token (t : string).

Definition spec_step_match (fr : string * list (string * string))
           (nm : string) (reqs : list (string * constraint)) : bool :=
  String.eqb (fst fr) nm &&
  forallb (fun '(k, c) =>
             match dict_get String.eqb (snd fr) k with
             | None => false
             | Some v =>
                 match c with
                 | Exact s => String.eqb v s
                 | Token t => existsb (String.eqb t) (split v)
                 end
             end) reqs.

End SpecReading.

(** * Properties *)

(** ** Python dicts as association lists *)
Module DictFacts.
Import Py.

Section Dict.
Context {K V : Type} (eqb : K -> K -> bool)
        (eqb_spec : forall x y, eqb x y = true <-> x = y).

Lemma eqb_refl_gen (x : K) : eqb x x = true.
Proof. apply eqb_spec; reflexivity. Qed.

Lemma eqb_sym_gen (x y : K) : eqb x y = eqb y x.
Proof.
  destruct (eqb x y) eqn:E1, (eqb y x) eqn:E2; try reflexivity.
  - apply eqb_spec in E1; subst; rewrite eqb_refl_gen in E2; discriminate.
  - apply eqb_spec in E2; subst; rewrite eqb_refl_gen in E1; discriminate.
Qed.

Lemma dict_get_set (d : list (K * V)) k v k' :
  dict_get eqb (dict_set eqb d k v) k' = if eqb k' k then Some v else dict_get eqb d k'.
Proof.
  induction d as [|[k1 v1] d IH]; simpl.
  - destruct (eqb k' k); reflexivity.
  - destruct (eqb k k1) eqn:E.
    + apply eqb_spec in E; subst; simpl.
      destruct (eqb k' k1); reflexivity.
    + simpl. destruct (eqb k' k1) eqn:E2.
      * apply eqb_spec in E2; subst.
        rewrite eqb_sym_gen, E; reflexivity.
      * exact IH.
Qed.

Lemma in_keys_set (d : list (K * V)) k v x :
  In x (map fst (dict_set eqb d k v)) <-> x = k \/ In x (map fst d).
Proof.
  induction d as [|[k1 v1] d IH]; simpl.
  - intuition.
  - destruct (eqb k k1) eqn:E; simpl.
    + apply eqb_spec in E; subst. intuition.
    + rewrite IH. intuition.
Qed.

Lemma nodup_set (d : list (K * V)) k v :
  NoDup (map fst d) -> NoDup (map fst (dict_set eqb d k v)).
Proof.
  induction d as [|[k1 v1] d IH]; simpl; intros Hn.
  - constructor; [simpl; tauto | constructor].
  - inversion Hn as [|? ? Hnin Hn']; subst.
    destruct (eqb k k1) eqn:E; simpl.
    + apply eqb_spec in E; subst. constructor; assumption.
    + constructor; [|apply IH; assumption].
      rewrite in_keys_set. intros [Heq|Hin]; [|contradiction].
      subst. rewrite eqb_refl_gen in E. discriminate.
Qed.

Lemma dict_get_notin (d : list (K * V)) k :
  ~ In k (map fst d) -> dict_get eqb d k = None.
Proof.
  induction d as [|[k1 v1] d IH]; simpl; intros Hn; [reflexivity|].
  destruct (eqb k k1) eqn:E.
  - apply eqb_spec in E. exfalso. apply Hn. left. symmetry; assumption.
  - apply IH. tauto.
Qed.

End Dict.

Lemma string_eqb_spec : forall x y, String.eqb x y = true <-> x = y.
Proof. exact String.eqb_eq. Qed.

Lemma z_eqb_spec : forall x y, Z.eqb x y = true <-> x = y.
Proof. exact Z.eqb_eq. Qed.

End DictFacts.

(** ** The streaming parser: single events *)
Module WatcherFacts.
Import Py Watcher.

Lemma run_app (l1 l2 : list event) (st : state) :
  run (l1 ++ l2) st = match run l1 st with Ok s => run l2 s | Err e => Err e end.
Proof.
  revert st; induction l1 as [|e l1 IH]; intros st; simpl; [reflexivity|].
  destruct (handle e st); [apply IH | reflexivity].
Qed.

Lemma marker_test_div (tag : string) (a : attrs) :
  marker_test tag a = Ok true -> tag = "div".
Proof.
  unfold marker_test. destruct (String.eqb tag "div") eqn:E.
  - intros _. apply String.eqb_eq; assumption.
  - discriminate.
Qed.

(** C7: a marker opening while a track item is open raises the
    "Unclosed track list item" error. *)
Theorem nested_marker_raises (tag : string) (raw : attrs) (st : state) (item : track) :
  listitem st = Some item ->
  marker_test tag (dict_of_pairs String.eqb raw) = Ok true ->
  handle_starttag tag raw st = Err UnclosedItem.
Proof.
  intros Hli Hm.
  pose proof (marker_test_div _ _ Hm) as Htag; subst tag.
  unfold handle_starttag. simpl. rewrite Hm, Hli. reflexivity.
Qed.

Lemma nested_marker_raises_witness :
  handle_starttag "div" [("class", Some "main-item"); ("id", Some "t2")]
    (mkState [] [("div", [("class", Some "main-item"); ("id", Some "t1")])]
             (Some [("id", VStr "t1")]) 1) = Err UnclosedItem.
Proof.
  apply (nested_marker_raises "div" _ _ [("id", VStr "t1")]); reflexivity.
Defined.

(** C8 (counterexample): closing [input] with nothing open is no error. *)
Lemma close_input_without_open_tag :
  last_opt (opentags init) = None /\ handle_endtag "input" init = Ok init.
Proof. split; reflexivity. Qed.

(** C8 (amended): close events of the ignored tag [input] are skipped;
    any other close event raises [Mismatch] unless it names the innermost
    open tag, which it then pops. *)
Theorem endtag_mismatch_or_pop (tag : string) (st : state) :
  (to_be_ignored tag = true -> handle_endtag tag st = Ok st) /\
  (to_be_ignored tag = false ->
   match last_opt (opentags st) with Some (t, _) => t <> tag | None => True end ->
   handle_endtag tag st = Err Mismatch) /\
  (to_be_ignored tag = false -> forall a : attrs,
   last_opt (opentags st) = Some (tag, a) ->
   exists st', handle_endtag tag st = Ok st' /\ opentags st' = removelast (opentags st)).
Proof.
  unfold handle_endtag. repeat split.
  - intros H; rewrite H; reflexivity.
  - intros H Hne; rewrite H.
    destruct (last_opt (opentags st)) as [[t a]|]; [|reflexivity].
    destruct (String.eqb tag t) eqn:E; [|reflexivity].
    apply String.eqb_eq in E; subst; contradiction.
  - intros H a Hl; rewrite H, Hl, String.eqb_refl; simpl.
    destruct (_ <? _)%nat; eexists; split; reflexivity.
Qed.

Lemma endtag_mismatch_or_pop_witness :
  handle_endtag "span" (mkState [] [("div", [])] None 0) = Err Mismatch.
Proof.
  apply (proj1 (proj2 (endtag_mismatch_or_pop "span" (mkState [] [("div", [])] None 0))));
    simpl; [reflexivity | discriminate].
Defined.

(** C3 (counterexample): a document ending inside a marker block parses
    without error and returns no record for it. *)
Lemma open_marker_at_end_no_error :
  run [StartTag "div" [("class", Some "main-item"); ("id", Some "t1")]] init
    = Ok (mkState [] [("div", [("class", Some "main-item"); ("id", Some "t1")])]
                  (Some [("id", VStr "t1")]) 1) /\
  fetch_tracks [StartTag "div" [("class", Some "main-item"); ("id", Some "t1")]] = Ok [].
Proof. split; reflexivity. Qed.

(** While a track item is open, no event changes the sealed tracks: only
    sealing appends to them, and sealing closes the item. *)
Lemma step_open_tracks (e : event) (st st' : state) :
  handle e st = Ok st' -> listitem st' <> None -> tracks st' = tracks st.
Proof.
  intros H Hopen. destruct e as [t a|t|s]; cbn [handle] in H.
  - unfold handle_starttag in H.
    destruct (to_be_ignored t); [inversion H; reflexivity|]. cbv zeta in H.
    destruct (marker_test t (dict_of_pairs String.eqb a)) as [[|]|x]; [| |discriminate].
    + destruct (listitem st); [discriminate|].
      destruct (dict_get String.eqb (dict_of_pairs String.eqb a) "id"); [|discriminate].
      inversion H; reflexivity.
    + inversion H; reflexivity.
  - unfold handle_endtag in H.
    destruct (to_be_ignored t); [inversion H; reflexivity|].
    destruct (last_opt (opentags st)) as [[t' a']|]; [|discriminate].
    destruct (negb (String.eqb t t')); [discriminate|].
    destruct (_ <? _)%nat; inversion H; subst; [contradiction Hopen|]; reflexivity.
  - unfold handle_data in H. destruct (listitem st).
    + destruct (apply_sigs _ _ _ _); inversion H; reflexivity.
    + inversion H; reflexivity.
Qed.

(** C3 (amended): input ending while a track item is open still parses:
    [feed] returns, [fetch_tracks] returns the tracks of the final state,
    and these are exactly the tracks already sealed at an earlier point
    where no item was open: the open item is dropped and nothing was
    sealed after it opened. *)
Theorem unclosed_item_dropped (evs : list event) (st : state) (item : track) :
  run evs init = Ok st ->
  listitem st = Some item ->
  fetch_tracks evs = Ok (tracks st) /\
  exists pre post st0, evs = (pre ++ post)%list /\ run pre init = Ok st0 /\
                       listitem st0 = None /\ tracks st0 = tracks st.
Proof.
  intros Hrun Hli. split; [unfold fetch_tracks; rewrite Hrun; reflexivity|].
  revert st item Hrun Hli.
  induction evs as [|e evs IH] using rev_ind; intros st item Hrun Hli.
  - simpl in Hrun. inversion Hrun; subst. discriminate.
  - rewrite run_app in Hrun.
    destruct (run evs init) as [s1|x] eqn:Hr; [|discriminate].
    simpl in Hrun. destruct (handle e s1) as [s2|x] eqn:He; inversion Hrun; subst s2.
    assert (Ht : tracks st = tracks s1)
      by (apply (step_open_tracks e); [exact He | rewrite Hli; discriminate]).
    destruct (listitem s1) as [t1|] eqn:Hl1.
    + destruct (IH s1 t1 eq_refl Hl1) as (pre & post & st0 & -> & H0 & H1 & H2).
      exists pre, (post ++ [e])%list, st0. rewrite app_assoc.
      repeat split; [exact H0 | exact H1 | rewrite H2; symmetry; exact Ht].
    + exists evs, [e], s1. repeat split; [exact Hr | exact Hl1 | symmetry; exact Ht].
Qed.

Lemma unclosed_item_dropped_witness :
  fetch_tracks [StartTag "div" [("class", Some "main-item"); ("id", Some "t1")];
                StartTag "p" []; Data "x"] = Ok [].
Proof.
  refine (proj1 (unclosed_item_dropped
    [StartTag "div" [("class", Some "main-item"); ("id", Some "t1")]; StartTag "p" []; Data "x"]
    (mkState [] [("div", [("class", Some "main-item"); ("id", Some "t1")]); ("p", [])]
             (Some [("id", VStr "t1")]) 1)
    [("id", VStr "t1")] _ _)); reflexivity.
Defined.

(** When a track item is open, closing the innermost tag seals it exactly
    when the depth after the pop is below the item's depth. *)
Lemma endtag_seal (tag : string) (st : state) (item : track) (a : attrs) :
  to_be_ignored tag = false ->
  listitem st = Some item ->
  last_opt (opentags st) = Some (tag, a) ->
  handle_endtag tag st =
    Ok (if (length (removelast (opentags st)) <? itemdepth st)%nat
        then mkState (tracks st ++ [Some item]) (removelast (opentags st)) None 0
        else mkState (tracks st) (removelast (opentags st)) (Some item) (itemdepth st)).
Proof.
  intros Hig Hli Hl. unfold handle_endtag.
  rewrite Hig, Hl, String.eqb_refl, Hli. simpl.
  destruct (_ <? _)%nat; reflexivity.
Qed.

End WatcherFacts.

(** ** The streaming parser on whole documents *)
Module WatcherDocFacts.
Import Py Watcher WatcherDoc WatcherFacts DictFacts.

Section dnode_induction.
Variable P : dnode -> Prop.
Hypothesis HText : forall s, P (DText s).
Hypothesis HElem : forall t a kids, Forall P kids -> P (DElem t a kids).

Fixpoint dnode_ind' (n : dnode) : P n :=
  match n with
  | DText s => HText s
  | DElem t a kids =>
      HElem t a kids
        ((fix go (l : list dnode) : Forall P l :=
            match l with
            | [] => @Forall_nil _ P
            | k :: r => @Forall_cons _ P k r (dnode_ind' k) (go r)
            end) kids)
  end.
End dnode_induction.

Lemma last_opt_snoc {A} (l : list A) (x : A) : last_opt (l ++ [x]) = Some x.
Proof. unfold last_opt. rewrite rev_unit. reflexivity. Qed.

Lemma apply_sigs_err sigs path data item e :
  apply_sigs sigs path data item = Err e -> e = ConvErr.
Proof.
  revert item; induction sigs as [|[thing conds] r IH]; intros item; simpl.
  - discriminate.
  - destruct (sig_match path conds); [|apply IH].
    destruct (Watcher.converters thing data); [apply IH | congruence].
Qed.

Lemma apply_sigs_other sigs path data item item' k :
  apply_sigs sigs path data item = Ok item' -> ~ In k (map fst sigs) ->
  dict_get String.eqb item' k = dict_get String.eqb item k.
Proof.
  revert item; induction sigs as [|[thing conds] r IH]; intros item; simpl.
  - congruence.
  - intros H Hn. destruct (sig_match path conds); [|apply IH; tauto].
    destruct (Watcher.converters thing data) as [v|]; [|discriminate].
    rewrite (IH _ H) by tauto.
    rewrite (dict_get_set String.eqb string_eqb_spec).
    destruct (String.eqb k thing) eqn:E; [|reflexivity].
    apply String.eqb_eq in E; subst; tauto.
Qed.

(** Idle: no item open; the events leave the open tags as they found them
    and seal one record per id of [ids], in order. *)
Definition idle_ok (evs : list event) (ids : list pyval) : Prop :=
  forall st, listitem st = None -> itemdepth st = 0 ->
  run evs st = Err ConvErr \/
  exists st', run evs st = Ok st' /\ opentags st' = opentags st /\
              listitem st' = None /\ itemdepth st' = 0 /\
              map track_id (tracks st') = (map track_id (tracks st) ++ map Some ids)%list.

(** Inside an item: the events keep it open, with its [id] and depth. *)
Definition rec_ok (evs : list event) : Prop :=
  forall st item, listitem st = Some item -> (itemdepth st <= length (opentags st))%nat ->
  run evs st = Err ConvErr \/
  exists st' item', run evs st = Ok st' /\ opentags st' = opentags st /\
              listitem st' = Some item' /\
              dict_get String.eqb item' "id" = dict_get String.eqb item "id" /\
              itemdepth st' = itemdepth st /\ tracks st' = tracks st.

Lemma idle_ok_nil : idle_ok [] [].
Proof.
  intros st H1 H2. right. exists st. rewrite app_nil_r. tauto.
Qed.

Lemma idle_ok_app e1 i1 e2 i2 :
  idle_ok e1 i1 -> idle_ok e2 i2 -> idle_ok (e1 ++ e2) (i1 ++ i2).
Proof.
  intros H1 H2 st Hl Hd. rewrite run_app.
  destruct (H1 st Hl Hd) as [He|(s1 & Hr1 & Ho1 & Hl1 & Hd1 & Ht1)]; rewrite ?He; [left; reflexivity|].
  rewrite Hr1.
  destruct (H2 s1 Hl1 Hd1) as [He|(s2 & Hr2 & Ho2 & Hl2 & Hd2 & Ht2)]; [left; assumption|].
  right. exists s2. rewrite Ht2, Ht1, map_app, app_assoc. repeat split; congruence.
Qed.

Lemma rec_ok_nil : rec_ok [].
Proof. intros st item H1 H2. right. exists st, item. tauto. Qed.

Lemma rec_ok_app e1 e2 : rec_ok e1 -> rec_ok e2 -> rec_ok (e1 ++ e2).
Proof.
  intros H1 H2 st item Hl Hd. rewrite run_app.
  destruct (H1 st item Hl Hd) as [He|(s1 & i1 & Hr1 & Ho1 & Hl1 & Hi1 & Hd1 & Ht1)];
    rewrite ?He; [left; reflexivity|].
  rewrite Hr1.
  destruct (H2 s1 i1 Hl1 ltac:(congruence))
    as [He|(s2 & i2 & Hr2 & Ho2 & Hl2 & Hi2 & Hd2 & Ht2)]; [left; assumption|].
  right. exists s2, i2. repeat split; congruence.
Qed.

Definition node_ok (n : dnode) : Prop :=
  (wf false n = true -> idle_ok (events_of n) (marker_ids n)) /\
  (wf true n = true -> rec_ok (events_of n)) /\
  (wf true n = true -> marker_ids n = []).

Lemma forest_ok (b : bool) kids :
  Forall node_ok kids -> forallb (wf b) kids = true ->
  (b = false -> idle_ok (flat_map events_of kids) (flat_map marker_ids kids)) /\
  (b = true -> rec_ok (flat_map events_of kids)) /\
  (b = true -> flat_map marker_ids kids = []).
Proof.
  induction 1 as [|k r Hk Hr IH]; simpl; intros Hwf.
  - repeat split; intros; [apply idle_ok_nil | apply rec_ok_nil].
  - apply andb_true_iff in Hwf as [Hwk Hwr].
    destruct (IH Hwr) as (I1 & I2 & I3). destruct Hk as (K1 & K2 & K3).
    repeat split; intros Hb; subst b.
    + apply idle_ok_app; auto.
    + apply rec_ok_app; auto.
    + rewrite K3, I3; auto.
Qed.

(** Events of an element whose tags the parser skips. *)
Lemma run_ignored t a evs st :
  to_be_ignored t = true ->
  run (StartTag t a :: (evs ++ [EndTag t])) st =
  match run evs st with Ok s => Ok s | Err e => Err e end.
Proof.
  intros Hig. cbn [run handle]. unfold handle_starttag at 1. rewrite Hig.
  rewrite run_app. destruct (run evs st) as [s|e]; [|reflexivity].
  cbn [run handle]. unfold handle_endtag. rewrite Hig. reflexivity.
Qed.

Lemma start_plain t a st :
  to_be_ignored t = false -> marker_test t (dict_of_pairs String.eqb a) = Ok false ->
  handle_starttag t a st =
  Ok (mkState (tracks st) (opentags st ++ [(t, dict_of_pairs String.eqb a)])
              (listitem st) (itemdepth st)).
Proof.
  intros Hig Hm. unfold handle_starttag. rewrite Hig. cbv zeta. rewrite Hm. reflexivity.
Qed.

Lemma start_marker t a st v :
  to_be_ignored t = false -> marker_test t (dict_of_pairs String.eqb a) = Ok true ->
  listitem st = None -> dict_get String.eqb (dict_of_pairs String.eqb a) "id" = Some v ->
  handle_starttag t a st =
  Ok (mkState (tracks st) (opentags st ++ [(t, dict_of_pairs String.eqb a)])
              (Some [("id", pyval_of_opt v)])
              (length (opentags st ++ [(t, dict_of_pairs String.eqb a)]))).
Proof.
  intros Hig Hm Hl Hid. unfold handle_starttag. rewrite Hig. cbv zeta.
  rewrite Hm, Hl, Hid. reflexivity.
Qed.

Lemma end_top t d st :
  to_be_ignored t = false -> last_opt (opentags st) = Some (t, d) ->
  handle_endtag t st =
  Ok (if (length (removelast (opentags st)) <? itemdepth st)%nat
      then mkState (tracks st ++ [listitem st]) (removelast (opentags st)) None 0
      else mkState (tracks st) (removelast (opentags st)) (listitem st) (itemdepth st)).
Proof.
  intros Hig Hl. unfold handle_endtag. rewrite Hig, Hl, String.eqb_refl. simpl.
  destruct (_ <? _)%nat; reflexivity.
Qed.

Lemma data_ok s : node_ok (DText s).
Proof.
  unfold node_ok; cbn [wf marker_ids events_of]. repeat split; intros _.
  - intros st Hl Hd. right. exists st. cbn [run handle]. unfold handle_data.
    rewrite Hl. rewrite app_nil_r. tauto.
  - intros st item Hl Hd. cbn [run handle]. unfold handle_data. rewrite Hl.
    destruct (apply_sigs signatures (opentags st) s item) as [item'|e] eqn:Ha.
    + right. exists (mkState (tracks st) (opentags st) (Some item') (itemdepth st)), item'.
      repeat split. apply (apply_sigs_other _ _ _ _ _ _ Ha).
      simpl. intuition discriminate.
    + left. rewrite (apply_sigs_err _ _ _ _ _ Ha). reflexivity.
Qed.

Lemma elem_ok t a kids : Forall node_ok kids -> node_ok (DElem t a kids).
Proof.
  intros HF. unfold node_ok. cbn [wf marker_ids events_of].
  set (d := dict_of_pairs String.eqb a).
  destruct (to_be_ignored t) eqn:Hig.
  - (* the parser skips this element's tags *)
    simpl app.
    repeat split; intros Hw; destruct (forest_ok _ _ HF Hw) as (F1 & F2 & F3).
    + intros st Hl Hd. rewrite run_ignored by assumption.
      destruct (F1 eq_refl st Hl Hd) as [He|(s' & Hr & R)]; [rewrite He; left; reflexivity|].
      rewrite Hr. right. exists s'. tauto.
    + intros st item Hl Hd. rewrite run_ignored by assumption.
      destruct (F2 eq_refl st item Hl Hd) as [He|(s' & i' & Hr & R)];
        [rewrite He; left; reflexivity|].
      rewrite Hr. right. exists s', i'. tauto.
    + apply F3; reflexivity.
  - destruct (marker_test t d) as [m|e] eqn:Hm; [|repeat split; discriminate].
    destruct m.
    + (* a marker block *)
      repeat split; simpl; intros Hw; [|discriminate|discriminate].
      destruct (dict_get String.eqb d "id") as [v|] eqn:Hid; [|discriminate].
      simpl in Hw. destruct (forest_ok true _ HF Hw) as (_ & F2 & F3).
      rewrite F3 by reflexivity.
      intros st Hl Hd. cbn [run handle].
      rewrite (start_marker t a st v Hig Hm Hl Hid). fold d. rewrite run_app.
      set (st1 := mkState (tracks st) (opentags st ++ [(t, d)]) (Some [("id", pyval_of_opt v)])
                          (length (opentags st ++ [(t, d)]))).
      destruct (F2 eq_refl st1 [("id", pyval_of_opt v)] eq_refl (le_n _))
        as [He|(s2 & i2 & Hr2 & Ho2 & Hl2 & Hi2 & Hd2 & Ht2)];
        [rewrite He; left; reflexivity|].
      rewrite Hr2. cbn [run handle].
      rewrite (end_top t d s2 Hig) by (rewrite Ho2; apply last_opt_snoc).
      rewrite Ho2, Hd2, Hl2, Ht2. simpl opentags. rewrite removelast_last.
      simpl itemdepth. rewrite length_app. simpl length.
      replace ((length (opentags st) <? length (opentags st) + 1)%nat) with true
        by (symmetry; apply Nat.ltb_lt; lia).
      right. eexists. split; [reflexivity|]. simpl. repeat split; try reflexivity.
      rewrite map_app. simpl. rewrite Hi2. reflexivity.
    + (* any other element *)
      rewrite !orb_false_r.
      repeat split; simpl; intros Hw; destruct (forest_ok _ _ HF Hw) as (F1 & F2 & F3).
      * intros st Hl Hd. cbn [run handle].
        rewrite (start_plain t a st Hig Hm). fold d. rewrite run_app.
        destruct (F1 eq_refl (mkState (tracks st) (opentags st ++ [(t, d)]) (listitem st) (itemdepth st)) Hl Hd)
          as [He|(s2 & Hr2 & Ho2 & Hl2 & Hd2 & Ht2)]; [rewrite He; left; reflexivity|].
        rewrite Hr2. cbn [run handle].
        rewrite (end_top t d s2 Hig) by (rewrite Ho2; apply last_opt_snoc).
        rewrite Ho2, Hd2. simpl opentags. rewrite removelast_last.
        replace ((length (opentags st) <? 0)%nat) with false
          by (symmetry; apply Nat.ltb_ge; lia).
        right. eexists. split; [reflexivity|]. simpl. repeat split; assumption.
      * intros st item Hl Hd. cbn [run handle].
        rewrite (start_plain t a st Hig Hm). fold d. rewrite run_app.
        destruct (F2 eq_refl (mkState (tracks st) (opentags st ++ [(t, d)]) (listitem st) (itemdepth st)) item Hl)
          as [He|(s2 & i2 & Hr2 & Ho2 & Hl2 & Hi2 & Hd2 & Ht2)];
          [simpl; rewrite length_app; simpl; lia | rewrite He; left; reflexivity |].
        rewrite Hr2. cbn [run handle].
        rewrite (end_top t d s2 Hig) by (rewrite Ho2; apply last_opt_snoc).
        rewrite Ho2, Hd2. simpl opentags. simpl itemdepth. rewrite removelast_last.
        replace ((length (opentags st) <? itemdepth st)%nat) with false
          by (symmetry; apply Nat.ltb_ge; lia).
        right. eexists. exists i2. split; [reflexivity|]. simpl. repeat split; assumption.
      * apply F3; reflexivity.
Qed.

Lemma all_nodes_ok (n : dnode) : node_ok n.
Proof. induction n using dnode_ind'; [apply data_ok | apply elem_ok; assumption]. Qed.

(** C4: closing the innermost tag while an item is open seals the item
    exactly when the depth after the pop is below the item's depth; on a
    well-nested document (no marker block inside another, an [id] on every
    marker, a value on every [div]'s [class]) the parse either stops with a
    converter error or returns one track per marker block, in document
    order. *)
Theorem seal_depth_and_one_track_per_block :
  (forall (tag : string) (st : state) (item : track) (a : attrs),
     to_be_ignored tag = false -> listitem st = Some item ->
     last_opt (opentags st) = Some (tag, a) ->
     handle_endtag tag st =
       Ok (if (length (removelast (opentags st)) <? itemdepth st)%nat
           then mkState (tracks st ++ [Some item]) (removelast (opentags st)) None 0
           else mkState (tracks st) (removelast (opentags st)) (Some item) (itemdepth st))) /\
  (forall ns : list dnode, forallb (wf false) ns = true ->
     run (doc_events ns) init = Err ConvErr \/
     exists trs, fetch_tracks (doc_events ns) = Ok trs /\
                 map track_id trs = map Some (flat_map marker_ids ns)).
Proof.
  split.
  - intros tag st item a Hig Hli Hl. apply (endtag_seal tag st item a Hig Hli Hl).
  - intros ns Hw.
    assert (HF : Forall node_ok ns) by (apply Forall_forall; intros; apply all_nodes_ok).
    destruct (forest_ok false ns HF Hw) as (F1 & _ & _).
    destruct (F1 eq_refl init eq_refl eq_refl) as [He|(st' & Hr & _ & _ & _ & Ht)];
      [left; exact He|].
    right. exists (tracks st'). unfold fetch_tracks, doc_events. rewrite Hr.
    split; [reflexivity | exact Ht].
Qed.

End WatcherDocFacts.

(** ** Signature matching *)
Module SignatureFacts.
Import Py Scraper Watcher DictFacts WatcherDocFacts.

Lemma forallb_combine_Forall2 {A B} (f : A -> B -> bool) (l1 : list A) (l2 : list B) :
  length l1 = length l2 ->
  (forallb (fun '(x, y) => f x y) (combine l1 l2) = true <->
   Forall2 (fun x y => f x y = true) l1 l2).
Proof.
  revert l2; induction l1 as [|x l1 IH]; intros [|y l2] Hlen; simpl in *;
    try discriminate.
  - split; auto.
  - rewrite andb_true_iff, IH by congruence. split.
    + intros [H1 H2]; constructor; assumption.
    + intros H; inversion H; subst; split; assumption.
Qed.

Lemma combine_firstn {A B} (l1 : list A) (l2 : list B) :
  combine l1 l2 = combine (firstn (length l2) l1) l2.
Proof.
  revert l1; induction l2 as [|y l2 IH]; intros [|x l1]; simpl; try reflexivity.
  rewrite <- IH. reflexivity.
Qed.

Lemma skipn_length_app {A} (pre suf : list A) : skipn (length pre) (pre ++ suf) = suf.
Proof. induction pre; simpl; auto. Qed.

(** C1: a signature only matches a contiguous run of open elements. In the
    streaming parser, on a path at least as long as the signature, it holds
    iff the innermost [length conds] frames match the steps one to one; in
    the tree scraper, iff the tag matches the last item and its nearest
    parents match the earlier items one to one. *)
Theorem signature_match_contiguous :
  (forall (path : list frame) (conds : list step),
     (length conds <= length path)%nat ->
     (sig_match path conds = true <->
      exists pre suf, path = (pre ++ suf)%list /\ length suf = length conds /\
                      Forall2 (fun fr t => step_match fr t = true) suf conds)) /\
  (forall (sig : list key) (k : key) (t : node) (parents : list node),
     (length sig <= length parents)%nat ->
     (signature_match (sig ++ [k])%list t parents = true <->
      signature_key_match t k = true /\
      Forall2 (fun p k' => signature_key_match p k' = true)
              (firstn (length sig) parents) (rev sig))).
Proof.
  split.
  - intros path conds Hle. unfold sig_match, slice_last.
    assert (Hlen : length (skipn (length path - length conds) path) = length conds)
      by (rewrite length_skipn; lia).
    rewrite (forallb_combine_Forall2 step_match _ _ Hlen). split.
    + intros HF. exists (firstn (length path - length conds) path),
                        (skipn (length path - length conds) path).
      rewrite firstn_skipn. tauto.
    + intros (pre & suf & -> & Hs & HF).
      rewrite length_app, Hs.
      replace (length pre + length conds - length conds)%nat with (length pre) by lia.
      rewrite skipn_length_app. exact HF.
  - intros sig k t parents Hle. unfold signature_match.
    rewrite rev_app_distr. simpl. rewrite andb_true_iff.
    rewrite combine_firstn, length_rev.
    rewrite (forallb_combine_Forall2 signature_key_match);
      [reflexivity | rewrite length_firstn, length_rev; lia].
Qed.

Lemma signature_match_contiguous_witness :
  sig_match [("div", [("class", Some "item-subject")]); ("h3", []); ("a", [])]
            [("div", [("class", "item-subject")]); ("h3", []); ("a", [])] = true.
Proof.
  apply (proj1 signature_match_contiguous); [simpl; lia|].
  exists [], [("div", [("class", Some "item-subject")]); ("h3", []); ("a", [])].
  repeat split; repeat constructor.
Defined.

Lemma strs_eqb_spec (l l' : list string) : strs_eqb l l' = true <-> l = l'.
Proof.
  revert l'; induction l as [|x l IH]; intros [|y l']; simpl;
    try (split; congruence).
  rewrite andb_true_iff, IH, String.eqb_eq. split.
  - intros [-> ->]; reflexivity.
  - intros H; inversion H; split; reflexivity.
Qed.

Lemma attrs_ok_spec (a reqs : list (string * aval)) :
  attrs_ok a reqs = true <->
  forall attr v, In (attr, v) reqs ->
  exists tv, dict_get String.eqb a attr = Some tv /\ (truthy v = false \/ aval_eqb v tv = true).
Proof.
  induction reqs as [|[attr value] r IH]; simpl.
  - split; [intros _ attr v []|reflexivity].
  - destruct (dict_get String.eqb a attr) as [tv|] eqn:Hg.
    + destruct (truthy value && negb (aval_eqb value tv)) eqn:Ht.
      * split; [discriminate|]. intros H.
        destruct (H attr value (or_introl eq_refl)) as (tv' & Hg' & Hc).
        rewrite Hg in Hg'. inversion Hg'; subst.
        apply andb_true_iff in Ht as [Ht1 Ht2]. apply negb_true_iff in Ht2.
        destruct Hc as [Hc|Hc]; congruence.
      * rewrite IH. split.
        -- intros H attr' v [Heq|Hin]; [|apply H; assumption].
           inversion Heq; subst. exists tv. split; [assumption|].
           apply andb_false_iff in Ht as [Ht|Ht]; [left; assumption|].
           apply negb_false_iff in Ht. right; assumption.
        -- intros H attr' v Hin. apply H. right; assumption.
    + split; [discriminate|]. intros H.
      destruct (H attr value (or_introl eq_refl)) as (tv & Hg' & _). congruence.
Qed.

(** C2 (amended): the step matchers compare whole values. In the tree
    scraper a tag matches a signature item iff its name equals the item's
    and each required attribute is present with, when the required value is
    non-empty, an equal value; for [class] both are token lists, equal only
    when they are the same list. In the streaming parser each required
    attribute must be present with exactly the required string. *)
Theorem step_matchers_compare_whole_values :
  (forall (t : node) (k : key),
     signature_key_match t k = true <->
     exists a kids, t = Tag (fst k) a kids /\
       forall attr v, In (attr, v) (snd k) ->
       exists tv, dict_get String.eqb a attr = Some tv /\
                  (truthy v = false \/ aval_eqb v tv = true)) /\
  (forall l l' : list string, aval_eqb (AToks l) (AToks l') = true <-> l = l') /\
  (forall (fr : frame) (test : step),
     step_match fr test = true <->
     fst test = fst fr /\
     forall k v, In (k, v) (snd test) -> dict_get String.eqb (snd fr) k = Some (Some v)).
Proof.
  repeat split.
  - destruct t as [nm a kids|s]; simpl; [|discriminate].
    rewrite andb_true_iff, String.eqb_eq, attrs_ok_spec.
    intros [-> H]. exists a, kids. split; [reflexivity | exact H].
  - intros (a' & kids' & Heq & H). destruct t as [nm a kids|s]; [|discriminate].
    inversion Heq; subst. simpl. rewrite String.eqb_refl. simpl.
    apply attrs_ok_spec. exact H.
  - apply strs_eqb_spec.
  - apply strs_eqb_spec.
  - unfold step_match in H. apply andb_true_iff in H as [H _].
    apply String.eqb_eq; assumption.
  - intros k v Hin. unfold step_match in H. apply andb_true_iff in H as [_ H].
    rewrite forallb_forall in H. specialize (H (k, v) Hin). simpl in H.
    destruct (dict_get String.eqb (snd fr) k) as [[v'|]|]; try discriminate.
    apply String.eqb_eq in H. subst. reflexivity.
  - intros [Hn H]. unfold step_match. apply andb_true_iff. split.
    + apply String.eqb_eq; assumption.
    + apply forallb_forall. intros [k v] Hin. rewrite (H k v Hin). apply String.eqb_refl.
Qed.

Lemma step_matchers_compare_whole_values_witness :
  step_match ("li", [("class", Some "info-views")]) ("li", [("class", "info-views")]) = true.
Proof.
  apply (proj2 (proj2 step_matchers_compare_whole_values)). split; [reflexivity|].
  intros k v [H|[]]. inversion H; subst. reflexivity.
Defined.

Lemma apply_sigs_field sigs path data item item' thing conds :
  NoDup (map fst sigs) -> apply_sigs sigs path data item = Ok item' ->
  In (thing, conds) sigs ->
  (sig_match path conds = true ->
   exists v, Watcher.converters thing data = Some v /\ dict_get String.eqb item' thing = Some v) /\
  (sig_match path conds = false -> dict_get String.eqb item' thing = dict_get String.eqb item thing).
Proof.
  revert item; induction sigs as [|[th cs] r IH]; intros item Hnd Ha Hin; [destruct Hin|].
  simpl in Hnd. inversion Hnd as [|? ? Hnin Hnd']; subst.
  simpl in Ha. destruct Hin as [Heq|Hin].
  - inversion Heq; subst th cs.
    destruct (sig_match path conds) eqn:Hs.
    + destruct (Watcher.converters thing data) as [v|] eqn:Hc; [|discriminate].
      split; [|discriminate]. intros _. exists v. split; [reflexivity|].
      rewrite (apply_sigs_other _ _ _ _ _ _ Ha Hnin).
      rewrite (dict_get_set String.eqb string_eqb_spec), String.eqb_refl. reflexivity.
    + split; [discriminate|]. intros _. apply (apply_sigs_other _ _ _ _ _ _ Ha Hnin).
  - assert (Hne : String.eqb thing th = false).
    { apply String.eqb_neq. intros ->. apply Hnin.
      apply (in_map fst) in Hin. exact Hin. }
    destruct (sig_match path cs).
    + destruct (Watcher.converters th data) as [v|]; [|discriminate].
      destruct (IH _ Hnd' Ha Hin) as [H1 H2]. split; [exact H1|].
      intros Hf. rewrite (H2 Hf), (dict_get_set String.eqb string_eqb_spec), Hne.
      reflexivity.
    + exact (IH _ Hnd' Ha Hin).
Qed.

Lemma fill_other sc sigs tg ps trk d trk' k :
  fill sc sigs tg ps trk = (d, Done trk') -> ~ In k (map fst sigs) ->
  dict_get String.eqb trk' k = dict_get String.eqb trk k.
Proof.
  revert trk d; induction sigs as [|[thing sig] r IH]; intros trk d; simpl.
  - intros H _; inversion H; reflexivity.
  - intros H Hn.
    destruct (find_all (signature_match sig) tg ps) as [|[t p] rest]; [discriminate|].
    destruct (convert sc thing t) as [v|e]; [|discriminate].
    destruct (fill sc r tg ps (dict_set String.eqb trk thing v)) as [d' o] eqn:Hf.
    inversion H; subst o.
    rewrite (IH _ _ Hf) by tauto.
    rewrite (dict_get_set String.eqb string_eqb_spec).
    destruct (String.eqb k thing) eqn:E; [|reflexivity].
    apply String.eqb_eq in E; subst; tauto.
Qed.

Lemma fill_first sc sigs tg ps trk d trk' thing sig :
  NoDup (map fst sigs) -> fill sc sigs tg ps trk = (d, Done trk') ->
  In (thing, sig) sigs ->
  exists t p rest v, find_all (signature_match sig) tg ps = (t, p) :: rest /\
                     convert sc thing t = Done v /\ dict_get String.eqb trk' thing = Some v.
Proof.
  revert trk d; induction sigs as [|[th sg] r IH]; intros trk d Hnd Hf Hin; [destruct Hin|].
  simpl in Hnd. inversion Hnd as [|? ? Hnin Hnd']; subst.
  simpl in Hf.
  destruct (find_all (signature_match sg) tg ps) as [|[t p] rest] eqn:Hfa; [discriminate|].
  destruct (convert sc th t) as [v|e] eqn:Hc; [|discriminate].
  destruct (fill sc r tg ps (dict_set String.eqb trk th v)) as [d' o] eqn:Hr.
  inversion Hf; subst o.
  destruct Hin as [Heq|Hin].
  - inversion Heq; subst th sg. exists t, p, rest, v. repeat split; try assumption.
    rewrite (fill_other _ _ _ _ _ _ _ _ Hr Hnin).
    rewrite (dict_get_set String.eqb string_eqb_spec), String.eqb_refl. reflexivity.
  - exact (IH _ _ Hnd' Hr Hin).
Qed.

Lemma watcher_signatures_nodup : NoDup (map fst Watcher.signatures).
Proof.
  simpl. apply NoDup_cons; [simpl; intuition discriminate|].
  apply NoDup_cons; [simpl; intuition discriminate|].
  apply NoDup_cons; [simpl; tauto | apply NoDup_nil].
Qed.

(** C9 (amended): in the streaming parser every text event that a
    field's signature matches runs the converter once and overwrites the
    field (other fields untouched), so the last matching text wins; in the
    tree scraper the field of a track is the conversion of the first tag,
    in document order, that the signature matches. *)
Theorem repeated_match_policy :
  (forall (data : string) (st st' : state) (item : track) (thing : string) (conds : list step),
     listitem st = Some item -> handle_data data st = Ok st' ->
     In (thing, conds) Watcher.signatures ->
     exists item', listitem st' = Some item' /\
       (sig_match (opentags st) conds = true ->
        exists v, Watcher.converters thing data = Some v /\
                  dict_get String.eqb item' thing = Some v) /\
       (sig_match (opentags st) conds = false ->
        dict_get String.eqb item' thing = dict_get String.eqb item thing)) /\
  (forall (sc : scraper) (tg : node) (ps : list node) (d : list diag) (trk : Scraper.track)
          (thing : string) (sig : list key),
     NoDup (map fst (Scraper.signatures sc)) ->
     fill sc (Scraper.signatures sc) tg ps [] = (d, Done trk) ->
     In (thing, sig) (Scraper.signatures sc) ->
     exists t p rest v, find_all (signature_match sig) tg ps = (t, p) :: rest /\
                        convert sc thing t = Done v /\ dict_get String.eqb trk thing = Some v).
Proof.
  split.
  - intros data st st' item thing conds Hl Hd Hin.
    unfold handle_data in Hd. rewrite Hl in Hd.
    destruct (apply_sigs Watcher.signatures (opentags st) data item) as [item'|e] eqn:Ha;
      [|discriminate].
    inversion Hd; subst st'. exists item'. split; [reflexivity|].
    apply (apply_sigs_field _ _ _ _ _ _ _ watcher_signatures_nodup Ha Hin).
  - intros sc tg ps d trk thing sig Hnd Hf Hin. exact (fill_first _ _ _ _ _ _ _ _ _ Hnd Hf Hin).
Qed.

Lemma repeated_match_policy_witness :
  dict_get String.eqb [("id", VStr "t1"); ("comments", VInt 7)] "comments" = Some (VInt 7).
Proof.
  destruct (proj1 repeated_match_policy "7"
              (mkState [] [("li", [("class", Some "info-replies")]); ("strong", [])]
                       (Some [("id", VStr "t1"); ("comments", VInt 1)]) 1)
              (mkState [] [("li", [("class", Some "info-replies")]); ("strong", [])]
                       (Some [("id", VStr "t1"); ("comments", VInt 7)]) 1)
              [("id", VStr "t1"); ("comments", VInt 1)] "comments"
              [("li", [("class", "info-replies")]); ("strong", [])])
    as (item' & Hl & H1 & _); [reflexivity | reflexivity | simpl; tauto |].
  simpl in Hl. inversion Hl; subst item'.
  destruct (H1 eq_refl) as (v & Hc & Hg). simpl in Hc. inversion Hc; subst v. exact Hg.
Defined.

End SignatureFacts.

(** ** The page loop of [scrape_week_tracks] *)
Module PageFacts.
Import Scraper.

Lemma pages_loop_spec {T E} (pr : Z -> list T + E) (pages : list Z)
      (trs : list T) (fetched : list Z) :
  pages <> [] ->
  exists pre i rest ls,
    pages = (pre ++ i :: rest)%list /\
    Forall2 (fun j l => pr j = inl l /\ l <> []) pre ls /\
    match pr i with inl (_ :: _) => rest = [] | _ => True end /\
    pages_loop pr pages trs fetched =
      ((fetched ++ pre ++ [i])%list,
       match pr i with inr e => inr e | inl l => inl (trs ++ concat ls ++ l)%list end).
Proof.
  revert trs fetched; induction pages as [|i r IH]; intros trs fetched Hne;
    [contradiction Hne; reflexivity|].
  simpl. destruct (pr i) as [[|x xs]|e] eqn:Hpi.
  - rewrite !app_nil_r, Nat.ltb_irrefl.
    exists [], i, r, []. simpl. rewrite Hpi, ?app_nil_r.
    repeat split; try apply Forall2_nil; try exact I; try reflexivity.
  - replace ((length trs <? length (trs ++ x :: xs))%nat) with true
      by (symmetry; apply Nat.ltb_lt; rewrite length_app; simpl; lia).
    destruct r as [|i' r'].
    + exists [], i, [], []. simpl. rewrite Hpi, ?app_nil_r. repeat split; try apply Forall2_nil; try exact I; try reflexivity.
    + destruct (IH (trs ++ x :: xs)%list (fetched ++ [i])%list ltac:(discriminate))
        as (pre & j & rest & ls & Hp & Hf & Hs & Hl).
      exists (i :: pre), j, rest, ((x :: xs) :: ls).
      split; [rewrite Hp; reflexivity|].
      split; [constructor; [split; [exact Hpi | discriminate] | exact Hf]|].
      split; [exact Hs|].
      cbn iota. rewrite Hl. f_equal.
      * rewrite <- !app_assoc. reflexivity.
      * destruct (pr j) as [l|e']; [|reflexivity].
        simpl. rewrite <- !app_assoc. reflexivity.
  - exists [], i, r, []. simpl. rewrite Hpi. repeat split; try apply Forall2_nil; try exact I; try reflexivity.
Qed.

(** C6 (amended): pages [1], [2], ... are fetched in order. Every page but
    the last one fetched returned and added tracks. The last one added no
    track, or raised, or is page 9 ([range(1, 10)]). The function then
    raises that page's exception, or returns the tracks of all fetched
    pages in order. *)
Theorem scrape_week_tracks_pages {T E} (page_records : Z -> list T + E) :
  exists pre i ls,
    fst (scrape_week_tracks page_records) = (pre ++ [i])%list /\
    (pre ++ [i])%list = firstn (S (length pre)) (map Z.of_nat (seq 1 9)) /\
    Forall2 (fun j l => page_records j = inl l /\ l <> []) pre ls /\
    match page_records i with inl (_ :: _) => i = 9%Z | _ => True end /\
    snd (scrape_week_tracks page_records) =
      match page_records i with inr e => inr e | inl l => inl (concat ls ++ l)%list end.
Proof.
  unfold scrape_week_tracks.
  destruct (pages_loop_spec page_records (map Z.of_nat (seq 1 9)) [] []
              ltac:(discriminate)) as (pre & i & rest & ls & Hp & Hf & Hs & Hl).
  exists pre, i, ls. rewrite Hl. cbn [fst snd].
  split; [reflexivity|]. split; [|split; [exact Hf|split]].
  - rewrite Hp. rewrite firstn_app, firstn_all2 by lia.
    replace (S (length pre) - length pre)%nat with 1%nat by lia. reflexivity.
  - destruct (page_records i) as [[|x xs]|e]; try exact I. subst rest.
    assert (H9 : (pre ++ [i])%list = ([1; 2; 3; 4; 5; 6; 7; 8] ++ [9])%list%Z)
      by (rewrite <- Hp; reflexivity).
    apply app_inj_tail in H9. destruct H9 as [_ H9]. exact H9.
  - destruct (page_records i); reflexivity.
Qed.

End PageFacts.

(** ** [check_new_comments] *)
Module CommentFacts.
Import Py Comments DictFacts.

Lemma week_indexed_get (l : list entry) d0 w :
  dict_get Z.eqb (fold_left (fun d i => dict_set Z.eqb d (week i) i) l d0) w =
  match rev (filter (fun e => (week e =? w)%Z) l) with
  | e :: _ => Some e
  | [] => dict_get Z.eqb d0 w
  end.
Proof.
  revert d0; induction l as [|x l IH]; intros d0; simpl; [reflexivity|].
  rewrite IH. destruct (week x =? w)%Z eqn:E; simpl.
  - destruct (rev (filter (fun e => (week e =? w)%Z) l)); simpl; [|reflexivity].
    rewrite (dict_get_set Z.eqb z_eqb_spec), Z.eqb_sym, E. reflexivity.
  - destruct (rev (filter (fun e => (week e =? w)%Z) l)); [|reflexivity].
    rewrite (dict_get_set Z.eqb z_eqb_spec), Z.eqb_sym, E. reflexivity.
Qed.

Lemma week_indexed_nodup (l : list entry) : NoDup (map fst (week_indexed l)).
Proof.
  unfold week_indexed.
  assert (H : forall d0 : list (Z * entry), NoDup (map fst d0) ->
              NoDup (map fst (fold_left (fun d i => dict_set Z.eqb d (week i) i) l d0))).
  { induction l as [|x l IH]; intros d0 Hd; simpl; [exact Hd|].
    apply IH. apply (nodup_set Z.eqb z_eqb_spec). exact Hd. }
  apply H. constructor.
Qed.

Section Outer.
Variable r : list (Z * entry).

Definition outer_step (new_comments : list (Z * Z)) (p : Z * entry) : list (Z * Z) :=
  let '(w, e) := p in
  match dict_get Z.eqb r w with
  | None => new_comments
  | Some re =>
      let n := (comments e - comments re)%Z in
      if negb (n =? 0)%Z then dict_set Z.eqb new_comments w n else new_comments
  end.

Lemma outer_step_other acc w' e' w :
  w <> w' -> dict_get Z.eqb (outer_step acc (w', e')) w = dict_get Z.eqb acc w.
Proof.
  intros Hne. unfold outer_step.
  destruct (dict_get Z.eqb r w') as [re|]; [|reflexivity].
  destruct (negb _); [|reflexivity].
  rewrite (dict_get_set Z.eqb z_eqb_spec).
  destruct (w =? w')%Z eqn:E; [apply Z.eqb_eq in E; contradiction | reflexivity].
Qed.

Lemma outer_get (L : list (Z * entry)) acc w :
  NoDup (map fst L) ->
  dict_get Z.eqb (fold_left outer_step L acc) w =
  match dict_get Z.eqb L w with
  | Some e =>
      match dict_get Z.eqb r w with
      | Some re =>
          if negb ((comments e - comments re) =? 0)%Z
          then Some (comments e - comments re)%Z else dict_get Z.eqb acc w
      | None => dict_get Z.eqb acc w
      end
  | None => dict_get Z.eqb acc w
  end.
Proof.
  revert acc; induction L as [|[w' e'] L IH]; intros acc Hnd;
    cbn [fold_left dict_get]; [reflexivity|].
  inversion Hnd as [|? ? Hnin Hnd']; subst.
  rewrite (IH _ Hnd').
  destruct (w =? w')%Z eqn:E.
  - apply Z.eqb_eq in E; subst w'.
    rewrite (dict_get_notin Z.eqb z_eqb_spec _ _ Hnin).
    unfold outer_step.
    destruct (dict_get Z.eqb r w) as [re|]; [|reflexivity].
    destruct (negb _); [|reflexivity].
    rewrite (dict_get_set Z.eqb z_eqb_spec), Z.eqb_refl. reflexivity.
  - assert (Hne : w <> w') by (apply Z.eqb_neq; exact E).
    rewrite !(outer_step_other _ _ _ _ Hne). reflexivity.
Qed.

Lemma outer_nodup (L : list (Z * entry)) acc :
  NoDup (map fst acc) -> NoDup (map fst (fold_left outer_step L acc)).
Proof.
  revert acc; induction L as [|[w e] L IH]; intros acc Hnd; simpl; [exact Hnd|].
  apply IH. unfold outer_step.
  destruct (dict_get Z.eqb r w); [|exact Hnd].
  destruct (negb _); [apply (nodup_set Z.eqb z_eqb_spec); exact Hnd | exact Hnd].
Qed.

End Outer.

Lemma check_new_comments_fold (tracks record : list entry) :
  check_new_comments tracks record =
  fold_left (outer_step (week_indexed record)) (week_indexed tracks) [].
Proof. reflexivity. Qed.

(** C10: [check_new_comments] maps exactly the weeks present in both lists
    whose comment counts differ (a week's count being that of its entry,
    the last one if there are several), each to the current count minus
    the recorded one, and lists each week once. The function is pure, so
    its arguments are left as they are. *)
Theorem check_new_comments_spec (tracks record : list entry) :
  NoDup (map fst (check_new_comments tracks record)) /\
  forall w : Z,
    dict_get Z.eqb (check_new_comments tracks record) w =
    match count_of tracks w, count_of record w with
    | Some a, Some b => if (a - b =? 0)%Z then None else Some (a - b)%Z
    | _, _ => None
    end.
Proof.
  rewrite check_new_comments_fold. split.
  - apply outer_nodup. constructor.
  - intros w. rewrite outer_get by apply week_indexed_nodup.
    unfold week_indexed, count_of. rewrite !week_indexed_get. simpl.
    destruct (rev (filter (fun e => (week e =? w)%Z) tracks)) as [|e _];
      [reflexivity|].
    destruct (rev (filter (fun e => (week e =? w)%Z) record)) as [|re _];
      [reflexivity|].
    destruct (comments e - comments re =? 0)%Z; reflexivity.
Qed.

End CommentFacts.

(** ** Concrete runs *)
Module Runs.
Import Py Watcher WatcherDoc SpecReading WatcherDocFacts.

(** C1 (counterexample): with a [span] between the [div] and the [h3],
    the title signature does not match, though the specification's
    skipping walk would match it. *)
Lemma skipped_ancestor_not_matched :
  let path := [("div", [("class", Some "item-subject")]); ("span", []);
               ("h3", []); ("a", [])] : list frame in
  let title := [("div", [("class", "item-subject")]); ("h3", []); ("a", [])] : list step in
  sig_match path title = false /\ spec_sig_match path title = true.
Proof. split; reflexivity. Qed.

(** C2 (counterexample): [<div class="item-subject extra">] holds the
    token [item-subject], yet the scraper's [class] test fails on it. *)
Lemma class_token_not_enough :
  Scraper.signature_key_match
    (Scraper.Tag "div" (Scraper.bs_attrs "div" [("class", "item-subject extra")]) [])
    ("div", [("class", Scraper.AToks ["item-subject"])]) = false /\
  spec_step_match ("div", [("class", "item-subject extra")]) "div"
                  [("class", Token "item-subject")] = true.
Proof. split; reflexivity. Qed.

(** A well-nested document with one marker block whose week text has no
    second word. *)
Definition bad_week_doc : list dnode :=
  [DElem "div" [("class", Some "main-item"); ("id", Some "t1")]
     [DElem "li" [("class", Some "info-views")] [DElem "strong" [] [DText "abc"]]]].

(** C4 (counterexample): one well-nested marker block, and no track: the
    week converter raises and the parse aborts. *)
Lemma conversion_error_aborts_document :
  forallb (wf false) bad_week_doc = true /\
  length (flat_map marker_ids bad_week_doc) = 1%nat /\
  fetch_tracks (doc_events bad_week_doc) = Err ConvErr.
Proof. repeat split; reflexivity. Qed.

Definition two_blocks_doc : list dnode :=
  [DElem "div" [("class", Some "main-item x"); ("id", Some "t1")]
     [DElem "li" [("class", Some "info-views")] [DElem "strong" [] [DText "Week 3"]];
      DElem "li" [("class", Some "info-replies")] [DElem "strong" [] [DText "4"]]];
   DElem "div" [("class", Some "main-item"); ("id", Some "t2")]
     [DElem "input" [] [];
      DElem "div" [("class", Some "item-subject")]
        [DElem "h3" [] [DElem "a" [] [DText "Song"]]]]].

Lemma seal_depth_and_one_track_per_block_witness :
  run (doc_events two_blocks_doc) init = Err ConvErr \/
  exists trs, fetch_tracks (doc_events two_blocks_doc) = Ok trs /\
              map track_id trs = map Some (flat_map marker_ids two_blocks_doc).
Proof. apply (proj2 seal_depth_and_one_track_per_block). reflexivity. Defined.

(** C6 (counterexample): every page yields a track, page 10 included, yet
    only pages 1 to 9 are fetched. *)
Lemma ninth_page_cap :
  Scraper.scrape_week_tracks (fun _ : Z => @inl (list unit) Empty_set [tt]) =
    ([1; 2; 3; 4; 5; 6; 7; 8; 9]%Z, inl [tt; tt; tt; tt; tt; tt; tt; tt; tt]).
Proof. reflexivity. Qed.

(** A marker block with two title links, ["A"] then ["B"]. *)
Definition two_titles_doc : Scraper.node :=
  Scraper.Tag "[document]" []
    [Scraper.Tag "div" (Scraper.bs_attrs "div" [("class", "main-item"); ("id", "x")])
       [Scraper.Tag "div" (Scraper.bs_attrs "div" [("class", "item-subject")])
          [Scraper.Tag "h3" [] [Scraper.Tag "a" [] [Scraper.NStr "A"]];
           Scraper.Tag "h3" [] [Scraper.Tag "a" [] [Scraper.NStr "B"]]]]].

(** C9 (counterexample): the tree scraper keeps the first title. *)
Lemma first_title_match_kept :
  Scraper.feed Scraper.TrackListScraper two_titles_doc [] =
  ([("title", 2%nat)], Scraper.Done [[("title", "A")]]).
Proof. reflexivity. Qed.

(** A marker block with no title in it. *)
Definition no_title_doc : Scraper.node :=
  Scraper.Tag "[document]" []
    [Scraper.Tag "div" (Scraper.bs_attrs "div" [("class", "main-item"); ("id", "x")])
       [Scraper.Tag "p" [] [Scraper.NStr "no title here"]]].

(** C5: on a marker block where the title signature matches nothing,
    [feed] prints the diagnostic and then raises [IndexError] at
    [result[0]]: no track is returned at all. *)
Theorem feed_zero_title_matches_raises :
  Scraper.feed Scraper.TrackListScraper no_title_doc [] =
  ([("title", 0%nat)], Scraper.Raised Scraper.IndexError).
Proof. reflexivity. Qed.

End Runs.

(** * Further properties of the code *)

(** ** [HTMLTrackParser]: invariants and failures *)
Module WatcherExtra.
Import Py Watcher WatcherInv WatcherFacts WatcherDocFacts.

Lemma last_opt_removelast {A} (l : list A) (x : A) :
  last_opt l = Some x -> (length (removelast l) + 1 = length l)%nat.
Proof.
  destruct l as [|y l'] using rev_ind; [discriminate|].
  intros _. rewrite removelast_last, length_app. reflexivity.
Qed.

Lemma id_not_a_signature : ~ In "id" (map fst Watcher.signatures).
Proof. simpl. intuition discriminate. Qed.

Lemma step_inv (e : event) (st st' : state) :
  handle e st = Ok st' -> inv st -> sealed_ok st -> inv st' /\ sealed_ok st'.
Proof.
  intros H Hinv Hs. destruct e as [t a|t|s]; cbn [handle] in H.
  - unfold handle_starttag in H.
    destruct (to_be_ignored t); [inversion H; subst; auto|]. cbv zeta in H.
    destruct (marker_test t (dict_of_pairs String.eqb a)) as [[|]|e]; [| |discriminate].
    + destruct (listitem st); [discriminate|].
      destruct (dict_get String.eqb (dict_of_pairs String.eqb a) "id") as [v|]; [|discriminate].
      inversion H; subst. split; [|exact Hs].
      right. exists [("id", pyval_of_opt v)], (pyval_of_opt v).
      simpl. rewrite length_app. simpl. repeat split; lia.
    + inversion H; subst. split; [|exact Hs]. unfold inv in *. simpl.
      rewrite length_app. simpl.
      destruct Hinv as [Hi|(item & v & H1 & H2 & H3 & H4)]; [left; exact Hi|].
      right. exists item, v. repeat split; auto; lia.
  - unfold handle_endtag in H.
    destruct (to_be_ignored t); [inversion H; subst; auto|].
    destruct (last_opt (opentags st)) as [[t' a']|] eqn:Hl; [|discriminate].
    destruct (negb (String.eqb t t')); [discriminate|].
    pose proof (last_opt_removelast _ _ Hl) as Hlen.
    destruct (length (removelast (opentags st)) <? itemdepth st)%nat eqn:Hlt;
      inversion H; subst; clear H.
    + apply Nat.ltb_lt in Hlt. split; [left; split; reflexivity|].
      unfold sealed_ok in *. simpl. apply Forall_app. split; [exact Hs|].
      destruct Hinv as [[H1 H2]|(item & v & H1 & H2 & H3 & H4)]; [lia|].
      rewrite H1. constructor; [|constructor]. exists item, v. split; auto.
    + apply Nat.ltb_ge in Hlt. split; [|exact Hs]. unfold inv in *. simpl.
      destruct Hinv as [Hi|(item & v & H1 & H2 & H3 & H4)]; [left; exact Hi|].
      right. exists item, v. repeat split; auto.
  - unfold handle_data in H. destruct (listitem st) as [item|] eqn:Hl.
    + destruct (apply_sigs Watcher.signatures (opentags st) s item) as [item'|e] eqn:Ha;
        [|discriminate].
      inversion H; subst. split; [|exact Hs]. unfold inv in *. simpl.
      destruct Hinv as [[H1 H2]|(item0 & v & H1 & H2 & H3 & H4)]; [congruence|].
      rewrite Hl in H1. inversion H1; subst item0.
      right. exists item', v. repeat split; auto.
      rewrite (apply_sigs_other _ _ _ _ _ _ Ha id_not_a_signature). exact H2.
    + inversion H; subst; auto.
Qed.

Lemma run_inv (evs : list event) (st st' : state) :
  run evs st = Ok st' -> inv st -> sealed_ok st -> inv st' /\ sealed_ok st'.
Proof.
  revert st; induction evs as [|e r IH]; intros st H Hi Hs; simpl in H.
  - inversion H; subst; auto.
  - destruct (handle e st) as [s1|x] eqn:He; [|discriminate].
    destruct (step_inv _ _ _ He Hi Hs). apply (IH s1); assumption.
Qed.

Lemma init_inv : inv init /\ sealed_ok init.
Proof. split; [left; split; reflexivity | constructor]. Qed.

(** At most one track item is open after any successful run from a fresh
    parser: either none is open and the item depth is [0], or one is open,
    carries its [id], and its depth lies between [1] and the current
    nesting depth. *)
Theorem reachable_state_inv (evs : list event) (st : state) :
  run evs init = Ok st -> inv st.
Proof.
  intros H. destruct init_inv as [Hi Hs]. exact (proj1 (run_inv _ _ _ H Hi Hs)).
Qed.

Lemma reachable_state_inv_witness :
  inv (mkState [] [("div", [("class", Some "main-item"); ("id", Some "t1")])]
               (Some [("id", VStr "t1")]) 1).
Proof.
  apply (reachable_state_inv [StartTag "div" [("class", Some "main-item"); ("id", Some "t1")]]).
  reflexivity.
Defined.

(** Every entry [fetch_tracks] returns is a track dict with an [id]:
    Python's [None] is never appended to [self.tracks]. *)
Theorem fetched_tracks_have_ids (evs : list event) (trs : list (option track)) :
  fetch_tracks evs = Ok trs ->
  Forall (fun o => exists r v, o = Some r /\ dict_get String.eqb r "id" = Some v) trs.
Proof.
  unfold fetch_tracks. destruct (run evs init) as [st|e] eqn:Hr; [|discriminate].
  intros H; inversion H; subst.
  destruct init_inv as [Hi Hs]. exact (proj2 (run_inv _ _ _ Hr Hi Hs)).
Qed.

Lemma fetched_tracks_have_ids_witness :
  Forall (fun o => exists r v, o = Some r /\ dict_get String.eqb r "id" = Some v)
         [Some [("id", VStr "t1")]].
Proof.
  apply (fetched_tracks_have_ids
           [StartTag "div" [("class", Some "main-item"); ("id", Some "t1")]; EndTag "div"]).
  reflexivity.
Defined.

Lemma step_tracks (e : event) (st st' : state) :
  handle e st = Ok st' -> exists ext, tracks st' = (tracks st ++ ext)%list.
Proof.
  intros H. destruct e as [t a|t|s]; cbn [handle] in H.
  - unfold handle_starttag in H.
    destruct (to_be_ignored t); [inversion H; subst; exists []; rewrite app_nil_r; auto|].
    cbv zeta in H.
    destruct (marker_test t (dict_of_pairs String.eqb a)) as [[|]|e]; [| |discriminate].
    + destruct (listitem st); [discriminate|].
      destruct (dict_get String.eqb (dict_of_pairs String.eqb a) "id"); [|discriminate].
      inversion H; subst. exists []. rewrite app_nil_r. reflexivity.
    + inversion H; subst. exists []. rewrite app_nil_r. reflexivity.
  - unfold handle_endtag in H.
    destruct (to_be_ignored t); [inversion H; subst; exists []; rewrite app_nil_r; auto|].
    destruct (last_opt (opentags st)) as [[t' a']|]; [|discriminate].
    destruct (negb (String.eqb t t')); [discriminate|].
    destruct (_ <? _)%nat; inversion H; subst; simpl.
    + eexists; reflexivity.
    + exists []. rewrite app_nil_r. reflexivity.
  - unfold handle_data in H. destruct (listitem st) as [item|].
    + destruct (apply_sigs _ _ _ _); inversion H; subst.
      exists []. rewrite app_nil_r. reflexivity.
    + inversion H; subst. exists []. rewrite app_nil_r. reflexivity.
Qed.

(** Sealed tracks are never changed or removed: a successful run only
    appends to [self.tracks]. *)
Theorem tracks_only_grow (evs : list event) (st st' : state) :
  run evs st = Ok st' -> exists ext, tracks st' = (tracks st ++ ext)%list.
Proof.
  revert st; induction evs as [|e r IH]; intros st H; simpl in H.
  - inversion H; subst. exists []. rewrite app_nil_r. reflexivity.
  - destruct (handle e st) as [s1|x] eqn:He; [|discriminate].
    destruct (step_tracks _ _ _ He) as [e1 H1]. destruct (IH _ H) as [e2 H2].
    exists (e1 ++ e2)%list. rewrite H2, H1, app_assoc. reflexivity.
Qed.

Lemma tracks_only_grow_witness :
  exists ext, [Some [("id", VStr "t0")]; Some [("id", VStr "t1")]] =
              ([Some [("id", VStr "t0")]] ++ ext)%list.
Proof.
  apply (tracks_only_grow
           [StartTag "div" [("class", Some "main-item"); ("id", Some "t1")]; EndTag "div"]
           (mkState [Some [("id", VStr "t0")]] [] None 0)
           (mkState [Some [("id", VStr "t0")]; Some [("id", VStr "t1")]] [] None 0)).
  reflexivity.
Defined.

(** [input] tags are invisible: dropping every [input] start and end event
    from the input changes neither the result nor the error. *)
Theorem input_events_invisible (evs : list event) (st : state) :
  run evs st = run (filter not_ignored evs) st.
Proof.
  revert st; induction evs as [|e r IH]; intros st; [reflexivity|].
  destruct e as [t a|t|s]; cbn [filter not_ignored run handle].
  - destruct (to_be_ignored t) eqn:Hig; simpl.
    + unfold handle_starttag. rewrite Hig. apply IH.
    + destruct (handle_starttag t a st); [apply IH|reflexivity].
  - destruct (to_be_ignored t) eqn:Hig; simpl.
    + unfold handle_endtag. rewrite Hig. apply IH.
    + destruct (handle_endtag t st); [apply IH|reflexivity].
  - destruct (handle_data s st); [apply IH|reflexivity].
Qed.

(** A start tag fails exactly on a [div]: with a value-less [class]
    ([None.startswith]), or as a [main-item] marker while an item is still
    open, or as a marker without an [id] attribute. Any other start tag is
    accepted. *)
Theorem starttag_error_iff (tag : string) (raw : attrs) (st : state) (e : err) :
  handle_starttag tag raw st = Err e <->
  tag = "div" /\
  (let a := dict_of_pairs String.eqb raw in
   (dict_get String.eqb a "class" = Some None /\ e = AttrErr) \/
   (exists c, dict_get String.eqb a "class" = Some (Some c) /\
              prefix "main-item" c = true /\
              ((listitem st <> None /\ e = UnclosedItem) \/
               (listitem st = None /\ dict_get String.eqb a "id" = None /\ e = KeyErr)))).
Proof.
  unfold handle_starttag, marker_test. cbv zeta. split.
  - destruct (to_be_ignored tag); [discriminate|].
    destruct (String.eqb tag "div") eqn:Hd; [|discriminate].
    apply String.eqb_eq in Hd. intros H. split; [exact Hd|].
    destruct (dict_get String.eqb (dict_of_pairs String.eqb raw) "class") as [[c|]|].
    + right. exists c. split; [reflexivity|].
      destruct (prefix "main-item" c); [|discriminate]. split; [reflexivity|].
      destruct (listitem st); [left; inversion H; split; [discriminate|reflexivity]|].
      destruct (dict_get String.eqb (dict_of_pairs String.eqb raw) "id"); [discriminate|].
      right. inversion H. repeat split; reflexivity.
    + left. inversion H. split; reflexivity.
    + discriminate.
  - intros [-> [[Hc ->]|(c & Hc & Hp & [[Hl ->]|(Hl & Hi & ->)])]];
      cbn [to_be_ignored In String.eqb]; simpl; rewrite Hc; [reflexivity| |];
      rewrite Hp.
    + destruct (listitem st); [reflexivity|congruence].
    + rewrite Hl, Hi. reflexivity.
Qed.

Lemma starttag_error_iff_witness :
  handle_starttag "div" [("class", Some "main-item x")] init = Err KeyErr.
Proof.
  apply (starttag_error_iff "div" [("class", Some "main-item x")] init KeyErr).
  split; [reflexivity|]. right. exists "main-item x".
  split; [reflexivity|]. split; [reflexivity|]. right. repeat split; reflexivity.
Defined.
End WatcherExtra.

(** ** Signatures on paths shorter than themselves *)
Module ShortPathFacts.
Import Py SignatureFacts.

Lemma combine_firstn_r {A B} (l1 : list A) (l2 : list B) :
  combine l1 l2 = combine l1 (firstn (length l1) l2).
Proof.
  revert l2; induction l1 as [|x l1 IH]; intros [|y l2]; simpl; try reflexivity.
  rewrite <- IH. reflexivity.
Qed.

(** In [HTMLTrackParser.handle_data], when fewer elements are open than
    the signature has steps, [self._opentags[-len(conditions):]] is the
    whole stack and [zip] pairs it with the FIRST steps: the outermost
    frame is tested against the first step, and the remaining steps are
    never checked. *)
Theorem watcher_short_path_left_aligned (path : list Watcher.frame)
        (conds : list Watcher.step) :
  (length path <= length conds)%nat ->
  (Watcher.sig_match path conds = true <->
   Forall2 (fun fr t => Watcher.step_match fr t = true) path (firstn (length path) conds)).
Proof.
  intros Hle. unfold Watcher.sig_match, slice_last.
  replace (length path - length conds)%nat with 0%nat by lia.
  cbn [skipn]. rewrite combine_firstn_r.
  apply forallb_combine_Forall2. rewrite length_firstn. lia.
Qed.

Lemma watcher_short_path_left_aligned_witness :
  Watcher.sig_match [("div", [("class", Some "item-subject")])]
    [("div", [("class", "item-subject")]); ("h3", []); ("a", [])] = true.
Proof.
  refine (proj2 (watcher_short_path_left_aligned _ _ _) _); [simpl; lia|].
  repeat constructor.
Defined.

(** In [TrackListScraper._signature_match_function], when the tag has
    fewer parents than the signature has earlier items, [zip] stops at the
    last parent: the tag must match the last item and each parent the
    corresponding earlier item, and the outermost items are never checked. *)
Theorem tree_short_parents_prefix (sig : list Scraper.key) (k : Scraper.key)
        (t : Scraper.node) (parents : list Scraper.node) :
  (length parents <= length sig)%nat ->
  (Scraper.signature_match (sig ++ [k])%list t parents = true <->
   Scraper.signature_key_match t k = true /\
   Forall2 (fun p k' => Scraper.signature_key_match p k' = true)
           parents (firstn (length parents) (rev sig))).
Proof.
  intros Hle. unfold Scraper.signature_match.
  rewrite rev_app_distr. simpl. rewrite andb_true_iff, combine_firstn_r.
  rewrite (forallb_combine_Forall2 Scraper.signature_key_match);
    [reflexivity | rewrite length_firstn, length_rev; lia].
Qed.

Lemma tree_short_parents_prefix_witness :
  Scraper.signature_match
    ([("div", [("class", Scraper.AToks ["item-subject"])]); ("h3", [])] ++ [("a", [])])%list
    (Scraper.Tag "a" [] [Scraper.NStr "T"]) [] = true.
Proof.
  refine (proj2 (tree_short_parents_prefix _ _ _ _ _) _); [simpl; lia|].
  split; [reflexivity | constructor].
Defined.
End ShortPathFacts.

(** ** [TrackListScraper.feed] and [scrape] *)
Module FeedFacts.
Import Py Scraper DictFacts.

Lemma fill_done (sc : scraper) sigs tg ps (trk : track) d trk' :
  fill sc sigs tg ps trk = (d, Done trk') ->
  (forall x, In x (map fst trk') <-> In x (map fst trk) \/ In x (map fst sigs)) /\
  Forall (fun dg : diag => 2 <= snd dg)%nat d.
Proof.
  revert trk d; induction sigs as [|[thing sig] r IH]; intros trk d H; simpl in H.
  - inversion H; subst. split; [simpl; tauto | constructor].
  - destruct (find_all (signature_match sig) tg ps) as [|[t0 p0] rest]; [inversion H|].
    destruct (convert sc thing t0) as [v|e]; [|inversion H].
    destruct (fill sc r tg ps (dict_set String.eqb trk thing v)) as [d' o] eqn:Hr.
    inversion H; subst. destruct (IH _ _ Hr) as [Hk Hd]. split.
    + intros x. rewrite Hk, (in_keys_set String.eqb string_eqb_spec). simpl.
      intuition congruence.
    + apply Forall_app. split; [|exact Hd].
      destruct rest; simpl; constructor; [simpl; lia | constructor].
Qed.

Lemma fill_zero (sc : scraper) sigs tg ps (trk : track) d o x :
  fill sc sigs tg ps trk = (d, o) -> In (x, 0%nat) d -> o = Raised IndexError.
Proof.
  revert trk d; induction sigs as [|[thing sig] r IH]; intros trk d H Hin; simpl in H.
  - inversion H; subst. destruct Hin.
  - destruct (find_all (signature_match sig) tg ps) as [|[t0 p0] rest].
    + inversion H; reflexivity.
    + assert (Hd : ~ In (x, 0%nat)
                     (if Nat.eqb (length ((t0, p0) :: rest)) 1 then []
                      else [(thing, length ((t0, p0) :: rest))])).
      { destruct rest; simpl; [tauto|]. intros [Heq|[]]; inversion Heq. }
      destruct (convert sc thing t0) as [v|e].
      * destruct (fill sc r tg ps (dict_set String.eqb trk thing v)) as [d' o'] eqn:Hr.
        inversion H; subst. apply in_app_or in Hin.
        destruct Hin as [Hin|Hin]; [contradiction | exact (IH _ _ Hr Hin)].
      * inversion H; subst. contradiction.
Qed.

Lemma feed_tags_done (sc : scraper) tgs acc d trs :
  feed_tags sc tgs acc = (d, Done trs) ->
  exists new, trs = (acc ++ new)%list /\ length new = length tgs /\
    Forall (fun trk : track => forall x, In x (map fst trk) <-> In x (map fst (signatures sc))) new /\
    Forall (fun dg : diag => 2 <= snd dg)%nat d.
Proof.
  revert acc d; induction tgs as [|[tg ps] r IH]; intros acc d H; simpl in H.
  - inversion H; subst. exists []. rewrite app_nil_r. repeat split; constructor.
  - destruct (fill sc (signatures sc) tg ps []) as [d1 [trk|e]] eqn:Hf; [|inversion H].
    destruct (feed_tags sc r (acc ++ [trk])%list) as [d2 o2] eqn:Hr.
    inversion H; subst. destruct (IH _ _ Hr) as (new & -> & Hl & Hk & Hd).
    destruct (fill_done _ _ _ _ _ _ _ Hf) as [Hk1 Hd1].
    exists (trk :: new). repeat split.
    + rewrite <- app_assoc. reflexivity.
    + simpl. rewrite Hl. reflexivity.
    + constructor; [|exact Hk]. intros x. rewrite Hk1. simpl. tauto.
    + apply Forall_app. split; assumption.
Qed.

Lemma feed_tags_zero (sc : scraper) tgs acc d o x :
  feed_tags sc tgs acc = (d, o) -> In (x, 0%nat) d -> o = Raised IndexError.
Proof.
  revert acc d; induction tgs as [|[tg ps] r IH]; intros acc d H Hin; simpl in H.
  - inversion H; subst. destruct Hin.
  - destruct (fill sc (signatures sc) tg ps []) as [d1 [trk|e]] eqn:Hf.
    + destruct (feed_tags sc r (acc ++ [trk])%list) as [d2 o2] eqn:Hr.
      inversion H; subst. apply in_app_or in Hin. destruct Hin as [Hin|Hin].
      * discriminate (fill_zero _ _ _ _ _ _ _ _ Hf Hin).
      * exact (IH _ _ Hr Hin).
    + inversion H; subst.
      pose proof (fill_zero _ _ _ _ _ _ _ _ Hf Hin) as He. inversion He. reflexivity.
Qed.

(** One marker block with one title. *)
Definition one_title_doc : node :=
  Tag "[document]" []
    [Tag "div" (bs_attrs "div" [("class", "main-item"); ("id", "x")])
       [Tag "div" (bs_attrs "div" [("class", "item-subject")])
          [Tag "h3" [] [Tag "a" [] [NStr "A"]]]]].

(** One marker block with the title signature matched twice. *)
Definition doubled_title_doc : node :=
  Tag "[document]" []
    [Tag "div" (bs_attrs "div" [("class", "main-item"); ("id", "x")])
       [Tag "div" (bs_attrs "div" [("class", "item-subject")])
          [Tag "h3" [] [Tag "a" [] [NStr "A"]];
           Tag "h3" [] [Tag "a" [] [NStr "B"]]]]].

(** A successful [feed] keeps the tracks it was given and appends exactly
    one track per [main-item] div, whose keys are exactly the scraper's
    signature names. *)
Theorem feed_appends_one_track_per_marker (sc : scraper) (doc : node)
        (acc trs : list track) (d : list diag) :
  feed sc doc acc = (d, Done trs) ->
  exists new, trs = (acc ++ new)%list /\
    length new = length (find_all is_track_tag doc []) /\
    Forall (fun trk : track => forall x, In x (map fst trk) <-> In x (map fst (signatures sc))) new.
Proof.
  unfold feed. intros H.
  destruct (feed_tags_done _ _ _ _ _ H) as (new & H1 & H2 & H3 & _).
  exists new. auto.
Qed.

Lemma feed_appends_one_track_per_marker_witness :
  exists new, [[("id", "x")]; [("title", "A")]] = ([[("id", "x")]] ++ new)%list /\
    length new = length (find_all is_track_tag one_title_doc []) /\
    Forall (fun trk : track => forall x, In x (map fst trk) <->
                                      In x (map fst (signatures TrackListScraper))) new.
Proof.
  apply (feed_appends_one_track_per_marker TrackListScraper one_title_doc [[("id", "x")]]
           [[("id", "x")]; [("title", "A")]] []).
  reflexivity.
Defined.

(** On a successful [feed] every diagnostic printed reports a signature
    matched at least twice: a signature matched zero times never lets the
    call return. *)
Theorem feed_success_diagnostics (sc : scraper) (doc : node)
        (acc trs : list track) (d : list diag) :
  feed sc doc acc = (d, Done trs) -> Forall (fun dg : diag => 2 <= snd dg)%nat d.
Proof.
  unfold feed. intros H.
  destruct (feed_tags_done _ _ _ _ _ H) as (_ & _ & _ & _ & Hd). exact Hd.
Qed.

Lemma feed_success_diagnostics_witness :
  Forall (fun dg : diag => 2 <= snd dg)%nat [("title", 2%nat)].
Proof.
  apply (feed_success_diagnostics TrackListScraper doubled_title_doc [] [[("title", "A")]]).
  reflexivity.
Defined.

(** Whenever [feed] prints a zero-match diagnostic, the call ends in
    [IndexError] (at [result[0]]). *)
Theorem feed_zero_diag_raises (sc : scraper) (doc : node) (acc : list track)
        (d : list diag) (o : outcome (list track)) (x : string) :
  feed sc doc acc = (d, o) -> In (x, 0%nat) d -> o = Raised IndexError.
Proof. unfold feed. apply feed_tags_zero. Qed.

Lemma feed_zero_diag_raises_witness :
  Scraper.Raised (A := list track) IndexError = Raised IndexError.
Proof.
  apply (feed_zero_diag_raises TrackListScraper
           (Tag "[document]" [] [Tag "div" (bs_attrs "div" [("class", "main-item")]) []])
           [] [("title", 0%nat)] (Raised IndexError) "title");
    [reflexivity | left; reflexivity].
Defined.

(** The boolean [scrape] returns on success is [True] exactly when the
    page holds at least one [main-item] div. *)
Theorem scrape_true_iff_markers (sc : scraper) (doc : node) (acc trs : list track)
        (d : list diag) (b : bool) :
  scrape sc doc acc = (d, Done (trs, b)) ->
  (b = true <-> find_all is_track_tag doc [] <> []).
Proof.
  unfold scrape. destruct (feed sc doc acc) as [d0 [trs0|e]] eqn:Hf; intros H;
    inversion H; subst.
  unfold feed in Hf. destruct (feed_tags_done _ _ _ _ _ Hf) as (new & -> & Hl & _ & _).
  rewrite length_app, Nat.ltb_lt.
  destruct (find_all is_track_tag doc []) as [|y ys]; destruct new; simpl in Hl;
    try discriminate; simpl.
  - split; [lia | congruence].
  - split; [intros _; discriminate | lia].
Qed.

Lemma scrape_true_iff_markers_witness :
  true = true <-> find_all is_track_tag one_title_doc [] <> [].
Proof.
  apply (scrape_true_iff_markers TrackListScraper one_title_doc [] [[("title", "A")]] []).
  reflexivity.
Defined.
End FeedFacts.

(** ** [TrackLinkScraper.extract_track_url] *)
Module TrackUrlFacts.
Import Py Scraper.

Lemma split_on_go_no_sep (c : ascii) (s : string) (cur : list ascii) :
  ~ In c (list_ascii_of_string s) ->
  split_on_go c s cur = [string_of_list_ascii (rev cur ++ list_ascii_of_string s)].
Proof.
  revert cur; induction s as [|d s IH]; intros cur Hn; simpl.
  - rewrite app_nil_r. reflexivity.
  - destruct (Ascii.eqb c d) eqn:E.
    + apply Ascii.eqb_eq in E. subst. exfalso. apply Hn. left. reflexivity.
    + rewrite IH by (simpl in Hn; tauto). simpl. rewrite <- app_assoc. reflexivity.
Qed.

Lemma split_on_go_first_sep (c : ascii) (s t : string) (cur : list ascii) :
  ~ In c (list_ascii_of_string s) ->
  split_on_go c (s ++ String c t) cur =
  string_of_list_ascii (rev cur ++ list_ascii_of_string s) :: split_on_go c t [].
Proof.
  revert cur; induction s as [|d s IH]; intros cur Hn; simpl.
  - rewrite Ascii.eqb_refl, app_nil_r. reflexivity.
  - destruct (Ascii.eqb c d) eqn:E.
    + apply Ascii.eqb_eq in E. subst. exfalso. apply Hn. left. reflexivity.
    + rewrite IH by (simpl in Hn; tauto). simpl. rewrite <- app_assoc. reflexivity.
Qed.

(** [onclick.split("'")[1]] is the text between the first two quotes: on
    an [onclick] of the form [pre'url'rest] with no quote in [pre] and
    [url], the track URL is [url], whatever [rest] holds. *)
Theorem extract_track_url_between_quotes (nm : string) (a : list (string * aval))
        (kids : list node) (v : aval) (pre url rest : string) :
  dict_get String.eqb a "onclick" = Some v ->
  attr_str v = (pre ++ String "'" (url ++ String "'" rest))%string ->
  ~ In "'"%char (list_ascii_of_string pre) ->
  ~ In "'"%char (list_ascii_of_string url) ->
  extract_track_url (Tag nm a kids) = Done url.
Proof.
  intros Hg Hv Hp Hu. simpl. rewrite Hg, Hv.
  rewrite (split_on_go_first_sep _ _ _ _ Hp), (split_on_go_first_sep _ _ _ _ Hu).
  simpl. rewrite string_of_list_ascii_of_string. reflexivity.
Qed.

Lemma extract_track_url_between_quotes_witness :
  extract_track_url
    (Tag "div" [("onclick", AStr "setPlaylistItem('https://x/y.m4a');")] []) =
  Done "https://x/y.m4a".
Proof.
  apply (extract_track_url_between_quotes "div"
           [("onclick", AStr "setPlaylistItem('https://x/y.m4a');")] []
           (AStr "setPlaylistItem('https://x/y.m4a');")
           "setPlaylistItem(" "https://x/y.m4a" ");");
    [reflexivity | reflexivity | simpl; intuition discriminate
     | simpl; intuition discriminate].
Defined.

(** [extract_track_url] raises [KeyError] on a tag without [onclick], and
    [IndexError] on an [onclick] holding no quote at all. *)
Theorem extract_track_url_errors (nm : string) (a : list (string * aval))
        (kids : list node) :
  (dict_get String.eqb a "onclick" = None ->
   extract_track_url (Tag nm a kids) = Raised KeyError) /\
  (forall v, dict_get String.eqb a "onclick" = Some v ->
   ~ In "'"%char (list_ascii_of_string (attr_str v)) ->
   extract_track_url (Tag nm a kids) = Raised IndexError).
Proof.
  split.
  - intros Hg. simpl. rewrite Hg. reflexivity.
  - intros v Hg Hn. simpl. rewrite Hg, (split_on_go_no_sep _ _ _ Hn). reflexivity.
Qed.

Lemma extract_track_url_errors_witness :
  extract_track_url (Tag "div" [("onclick", AStr "play()")] []) = Raised IndexError.
Proof.
  apply (proj2 (extract_track_url_errors "div" [("onclick", AStr "play()")] [])
               (AStr "play()")); [reflexivity | simpl; intuition discriminate].
Defined.
End TrackUrlFacts.

(** ** [check_new_comments] *)
Module CommentExtra.
Import Py Comments DictFacts CommentFacts.

Lemma check_new_comments_get (tracks record : list entry) (w : Z) :
  dict_get Z.eqb (check_new_comments tracks record) w =
  match count_of tracks w, count_of record w with
  | Some a, Some b => if (a - b =? 0)%Z then None else Some (a - b)%Z
  | _, _ => None
  end.
Proof.
  rewrite check_new_comments_fold, outer_get by apply week_indexed_nodup.
  unfold week_indexed, count_of. rewrite !week_indexed_get. simpl.
  destruct (rev (filter (fun e => (week e =? w)%Z) tracks)) as [|e _]; [reflexivity|].
  destruct (rev (filter (fun e => (week e =? w)%Z) record)) as [|re _]; [reflexivity|].
  destruct (comments e - comments re =? 0)%Z; reflexivity.
Qed.

(** Swapping the two lists negates every reported change and reports the
    same weeks. *)
Theorem check_new_comments_antisym (a b : list entry) (w : Z) :
  dict_get Z.eqb (check_new_comments a b) w =
  option_map Z.opp (dict_get Z.eqb (check_new_comments b a) w).
Proof.
  rewrite !check_new_comments_get.
  destruct (count_of a w) as [x|], (count_of b w) as [y|]; try reflexivity.
  destruct (x - y =? 0)%Z eqn:E1, (y - x =? 0)%Z eqn:E2; simpl; try reflexivity.
  - apply Z.eqb_eq in E1. apply Z.eqb_neq in E2. lia.
  - apply Z.eqb_neq in E1. apply Z.eqb_eq in E2. lia.
  - f_equal. lia.
Qed.

End CommentExtra.
